(** * Deep research agent: the query client and the research tool

    A shallow embedding of [src/agent/tools.py] (the Tavily query client
    [_do_internet_search], the capturing wrapper [internet_search_tracked],
    the nested run [_run_research_isolated] and the tool [research]) and of
    the tool-call allow-list configured in [src/agent/main.py].

    Python dictionaries with string keys are [gmap string string]; Python
    lists that are mutated in place live in a store and are referred to by
    their location; code that can raise runs in a state-and-exception monad
    over the process state.  The [print] calls of the tools only log and are
    left out.  The search provider and the language-model agent are outside
    the repository: they are parameters of the development ([Externals]). *)

From Stdlib Require Import ZArith Ascii String List Lia.
From Corelib Require Import PrimFloat.
From stdpp Require Import base option list gmap strings.

Open Scope string_scope.
Open Scope list_scope.
Open Scope nat_scope.

(** ** Python values used by the tools *)

(** A result or search record whose values are strings: a [dict] with
    string keys.  (Records with other JSON values are [Json.record], below.) *)
Abbreviation dict := (gmap string string).

(** An exception instance, of a subclass of [Exception] (what
    [except Exception] catches): its class and the text [str(e)] renders. *)
Record exn := Exn { exn_class : string; exn_str : string }.

Definition RuntimeError (msg : string) : exn := Exn "RuntimeError" msg.
Definition KeyError (key : string) : exn := Exn "KeyError" key.

(** Outcome of running Python code: a value, or a raised exception. *)
Inductive result (A : Type) : Type :=
| Ok (a : A)
| Raise (e : exn).
Arguments Ok {A} a.
Arguments Raise {A} e.

(** Truth value of an optional string: [None] and the empty string are falsy. *)
Definition truthy (v : option string) : bool :=
  match v with
  | Some (String _ _) => true
  | _ => false
  end.

(** [v or d] on an optional string. *)
Definition py_or (v : option string) (d : string) : string :=
  match v with
  | Some (String c s) => String c s
  | _ => d
  end.

(** [s[:n]]: the first [n] characters of [s] (all of [s] when it is shorter). *)
Fixpoint slice_to (n : nat) (s : string) : string :=
  match n, s with
  | S n', String c s' => String c (slice_to n' s')
  | _, _ => ""
  end.

(** [r.get(key, d)]. *)
Definition dict_get (r : dict) (key d : string) : string := default d (r !! key).

(** [key in r]. *)
Definition dict_contains (key : string) (r : dict) : bool :=
  bool_decide (is_Some (r !! key)).

(** [r[key]], which raises [KeyError] on a missing key. *)
Definition dict_getitem (r : dict) (key : string) : result string :=
  match r !! key with
  | Some v => Ok v
  | None => Raise (KeyError key)
  end.

(** Two different string literals are different. *)
Ltac string_ne := let H := fresh in intros H; inversion H.

(** ** The outside world *)

(** What [TavilyClient.search] returns when the answer has the provider's
    documented shape: a dictionary whose ["results"] entry, when present, is
    the list of hits.  A hit is a dictionary; the fields the tools read
    ([url], [title], [content]) are strings when the provider sends them, and
    any of them may be missing.  Answers of any other shape are followed in
    the module [Json], whose query client agrees with the one below on these
    answers. *)
Record tavily_response := TavilyResponse { response_results : option (list dict) }.

(** The nested Task Executor, from the construction of the model and the
    agent to the return of [research_agent.invoke], seen from the tool it is
    given: it ends with a final message, raises (also when the model or the
    agent cannot be built), or calls the tool and continues from the tool's
    outcome.  The tree is finite: a run makes finitely many tool calls.
    [max_results] is [None] when the call leaves the argument to its
    default. *)
Inductive agent : Type :=
| Final (content : string)
| Fault (e : exn)
| ToolCall (query : string) (max_results : option Z) (k : result (list dict) -> agent).

(** The external collaborators of the tools: the search provider and the
    language-model driven agent.  [world] is whatever state they hold. *)
Class Externals := {
  world : Type;
  (** [TavilyClient(api_key=key).search(query=..., max_results=..., include_raw_content=False, topic="general")] *)
  TavilyClient_search : string -> string -> Z -> world -> result tavily_response * world;
  (** [create_deep_agent(model=ChatOpenAI(model=..., api_key=...), system_prompt=..., tools=[tool]).invoke(
       {"messages": [HumanMessage(content=query)]})], given the model name and the API key read from the
      environment *)
  create_deep_agent_invoke : string -> option string -> string -> world -> agent;
}.

(** ** Process state and the monad of the tools *)

Section Tools.
Context {X : Externals}.

(** The process state: [os.environ], the outside world, and the store of
    list objects ([store !! l] is the current content of the list at [l]). *)
Record state := State {
  os_environ : gmap string string;
  external : world;
  store : list (list dict);
}.

Definition M (A : Type) : Type := state -> result A * state.

Definition ret {A} (a : A) : M A := fun st => (Ok a, st).
Definition raise {A} (e : exn) : M A := fun st => (Raise e, st).
Definition bind {A B} (m : M A) (f : A -> M B) : M B :=
  fun st =>
    match m st with
    | (Ok a, st') => f a st'
    | (Raise e, st') => (Raise e, st')
    end.

#[global] Instance M_ret : MRet M := @ret.
#[global] Instance M_bind : MBind M := fun A B f m => bind m f.

(** [try: body except Exception as e: handler(e)]. *)
Definition try_except {A} (body : M A) (handler : exn -> M A) : M A :=
  fun st =>
    match body st with
    | (Ok a, st') => (Ok a, st')
    | (Raise e, st') => handler e st'
    end.

(** Run [m] and hand its outcome, value or exception, to the caller. *)
Definition outcome_of {A} (m : M A) : M (result A) :=
  fun st => let '(r, st') := m st in (Ok r, st').

Definition lift {A} (r : result A) : M A := fun st => (r, st).

End Tools.

Section Client.
Context {X : Externals}.

(** [os.environ.get(name)]. *)
Definition os_environ_get (name : string) : M (option string) :=
  fun st => (Ok (os_environ st !! name), st).

(** The provider call, on the outside world. *)
Definition client_search (key query : string) (max_results : Z) : M tavily_response :=
  fun st =>
    let '(r, w) := TavilyClient_search key query max_results (external st) in
    (r, State (os_environ st) w (store st)).

(** One formatted result (tools.py, lines 47-51). *)
Definition format_result (r : dict) : dict :=
  {[ "url" := dict_get r "url" "";
     "title" := dict_get r "title" "";
     "content" := slice_to 3000 (py_or (r !! "content") "") ]}.

(** The failure sentinel (tools.py, line 58). *)
Definition error_record (e : exn) : dict := {[ "error" := exn_str e ]}.

(** [_do_internet_search(query, max_results)] (tools.py, lines 19-58). *)
Definition _do_internet_search (query : string) (max_results : Z) : M (list dict) :=
  tavily_key ← os_environ_get "TAVILY_API_KEY";
  if negb (truthy tavily_key) then raise (RuntimeError "TAVILY_API_KEY not set")
  else
    try_except
      (results ← client_search (default "" tavily_key) query max_results;
       ret (format_result <$> default [] (response_results results)))
      (fun e => ret [error_record e]).

(** The [internet_search] tool (tools.py, lines 61-75). *)
Definition internet_search (query : string) (max_results : Z) : M (list dict) :=
  _do_internet_search query max_results.

End Client.

(** ** The research tool *)

Section Research.
Context {X : Externals}.

(** [ResearchOutcome]: the dictionary [{"summary": ..., "sources": ...}]. *)
Record research_outcome := ResearchOutcome {
  summary : string;
  sources : list dict;
}.

(** [search_results = []]: a new list object, at a location no list has. *)
Definition new_list : M nat :=
  fun st => (Ok (length (store st)), State (os_environ st) (external st) (store st ++ [[]])).

(** [l.extend(items)] on the list object at [l]. *)
Definition list_extend (l : nat) (items : list dict) : M unit :=
  fun st => (Ok tt, State (os_environ st) (external st) (alter (fun old => old ++ items) l (store st))).

(** The current content of the list object at [l]. *)
Definition list_read (l : nat) : M (list dict) :=
  fun st => (Ok (default [] (store st !! l)), st).

(** [internet_search_tracked], the closure over [search_results]
    (tools.py, lines 110-122). *)
Definition internet_search_tracked (search_results : nat)
    (query : string) (max_results : Z) : M (list dict) :=
  results ← _do_internet_search query max_results;
  list_extend search_results results;;
  ret results.

(** [research_agent.invoke(...)] with [tool] as the agent's only tool; an
    omitted [max_results] takes the tool's default, 5.  The outcome of each
    tool call, also a raised exception, goes back to the agent. *)
Fixpoint agent_invoke (tool : string -> Z -> M (list dict)) (a : agent) : M string :=
  match a with
  | Final content => ret content
  | Fault e => raise e
  | ToolCall query max_results k =>
      r ← outcome_of (tool query (default 5%Z max_results));
      agent_invoke tool (k r)
  end.

(** The condition of the comprehension: ["url" in r and not r.get("error")]. *)
Definition is_source (r : dict) : bool :=
  dict_contains "url" r && negb (truthy (r !! "error")).

(** The element of the comprehension (tools.py, lines 158-163). *)
Definition source_record (r : dict) : result dict :=
  match dict_getitem r "url" with
  | Ok url =>
      Ok {[ "url" := url;
            "title" := dict_get r "title" "";
            "content" := slice_to 3000 (dict_get r "content" "");
            "status" := "found" ]}
  | Raise e => Raise e
  end.

(** [[f(r) for r in rs]] for an [f] that can raise. *)
Fixpoint comprehension (f : dict -> result dict) (rs : list dict) : result (list dict) :=
  match rs with
  | [] => Ok []
  | r :: rs' =>
      match f r with
      | Ok s =>
          match comprehension f rs' with
          | Ok ss => Ok (s :: ss)
          | Raise e => Raise e
          end
      | Raise e => Raise e
      end
  end.

(** The [sources] comprehension (tools.py, lines 157-165). *)
Definition format_sources (search_results : list dict) : result (list dict) :=
  comprehension source_record (filter (fun r => is_source r = true) search_results).

(** The nested run up to [research_agent.invoke] (tools.py, lines 106-147):
    the new [search_results] list and the agent built for [query]. *)
Definition nested_start (query : string) : M (nat * agent) :=
  search_results ← new_list;
  model_name ← os_environ_get "OPENAI_MODEL";
  api_key ← os_environ_get "OPENAI_API_KEY";
  research_agent ← (fun st =>
    (Ok (create_deep_agent_invoke (default "gpt-5.2" model_name) api_key query (external st)), st));
  ret (search_results, research_agent).

(** The nested run after the agent has returned [summary]
    (tools.py, lines 154-167). *)
Definition nested_finish (search_results : nat) (summary : string) : M research_outcome :=
  captured ← list_read search_results;
  sources ← lift (format_sources captured);
  ret (ResearchOutcome summary sources).

(** [_run_research_isolated()] (tools.py, lines 101-167). *)
Definition _run_research_isolated (query : string) : M research_outcome :=
  '(search_results, research_agent) ← nested_start query;
  summary ← agent_invoke (internet_search_tracked search_results) research_agent;
  nested_finish search_results summary.

(** A [Future]: the outcome its task ended with. *)
Inductive future (A : Type) : Type := Future (outcome : result A).
Arguments Future {A} outcome.

(** [executor.submit(fn)] on a pool created for this one call, seen from
    the caller that then blocks on the future: the pool's worker runs [fn] to
    the end and the future holds the outcome.  (The section on overlapping
    invocations runs the worker step by step.) *)
Definition executor_submit {A} (max_workers : nat) (fn : M A) : M (future A) :=
  r ← outcome_of fn;
  ret (Future r).

(** [future.result()]: the task's value, or its exception raised again. *)
Definition future_result {A} (f : future A) : M A :=
  match f with
  | Future r => lift r
  end.

(** [research(query)] (tools.py, lines 78-176). *)
Definition research (query : string) : M research_outcome :=
  future ← executor_submit 1 (_run_research_isolated query);
  result ← future_result future;
  ret result.

End Research.

(** ** Invocations that overlap in time

    [research] is a synchronous tool; a caller that runs tool calls on
    several threads can have several invocations in flight.  The system
    below interleaves them: every invocation owns the pool it created, the
    pool's worker runs the nested run one agent action at a time, and the
    invocation returns once its future is set. *)

Section Overlap.
Context {X : Externals}.

(** A work item of a pool: waiting for a worker, inside the nested run (with
    its [search_results] location and what is left of the agent's run), or
    ended with its future set. *)
Inductive task : Type :=
| Pending (query : string)
| Running (search_results : nat) (a : agent)
| Finished (search_results : nat) (r : result research_outcome).

(** A [ThreadPoolExecutor]: its capacity and its work items in submission
    order. *)
Record executor := Executor {
  max_workers : nat;
  work_queue : list task;
}.

(** An invocation of [research] blocked in [future.result()], or returned. *)
Record invocation := Invocation {
  inv_executor : nat;
  inv_future : nat;
  inv_returned : option (result research_outcome);
}.

Record system := System {
  process : state;
  executors : list executor;
  invocations : list invocation;
}.

(** The events of the system, with the lines of tools.py they run. *)
Inductive event : Type :=
| ev_research (query : string)   (* a caller enters [research(query)], creates its pool and
                                    submits the nested run: lines 171-172 *)
| ev_start (e : nat)             (* a free worker of pool [e] takes its next work item and
                                    runs it up to [invoke]: lines 106-147 *)
| ev_step (e j : nat)            (* work item [j] of pool [e] performs its next action: a
                                    tool call (lines 120-122), the end of the run (lines
                                    154-167), or the agent's exception *)
| ev_return (i : nat).           (* [future.result()] of invocation [i] returns or raises:
                                    lines 173-176 *)

Definition is_running (t : task) : bool :=
  match t with Running _ _ => true | _ => false end.

Definition running_count (q : list task) : nat := length (filter (fun t => is_running t = true) q).

(** The first work item still waiting, with its position. *)
Fixpoint next_pending (q : list task) : option (nat * string) :=
  match q with
  | [] => None
  | Pending query :: _ => Some (0, query)
  | _ :: q' =>
      match next_pending q' with
      | Some (j, query) => Some (S j, query)
      | None => None
      end
  end.

(** A worker begins the nested run of [query]. *)
Definition task_start (query : string) (st : state) : task * state :=
  match nested_start query st with
  | (Ok (search_results, research_agent), st') => (Running search_results research_agent, st')
  | (Raise e, st') => (Finished (length (store st)) (Raise e), st')
  end.

(** The next action of a running work item: one tool call, or the end of
    the nested run. *)
Definition task_step (search_results : nat) (a : agent) (st : state) : task * state :=
  match a with
  | Final content =>
      let '(r, st') := nested_finish search_results content st in
      (Finished search_results r, st')
  | Fault e => (Finished search_results (Raise e), st)
  | ToolCall query max_results k =>
      match outcome_of (internet_search_tracked search_results query (default 5%Z max_results)) st with
      | (Ok r, st') => (Running search_results (k r), st')
      | (Raise e, st') => (Finished search_results (Raise e), st')
      end
  end.

(** Work item [j] of pool [e]. *)
Definition task_in (exs : list executor) (e j : nat) : option task :=
  match exs !! e with
  | Some ex => work_queue ex !! j
  | None => None
  end.

Definition task_at (s : system) (e j : nat) : option task := task_in (executors s) e j.

Definition set_task (e j : nat) (t : task) (exs : list executor) : list executor :=
  alter (fun ex => Executor (max_workers ex) (<[j := t]> (work_queue ex))) e exs.

Definition step (ev : event) (s : system) : option system :=
  match ev with
  | ev_research query =>
      (* with ThreadPoolExecutor(max_workers=1) as executor:
           future = executor.submit(_run_research_isolated) *)
      Some (System (process s)
              (executors s ++ [Executor 1 [Pending query]])
              (invocations s ++ [Invocation (length (executors s)) 0 None]))
  | ev_start e =>
      match executors s !! e with
      | Some ex =>
          if decide (running_count (work_queue ex) < max_workers ex) then
            match next_pending (work_queue ex) with
            | Some (j, query) =>
                let '(t, st') := task_start query (process s) in
                Some (System st' (set_task e j t (executors s)) (invocations s))
            | None => None
            end
          else None
      | None => None
      end
  | ev_step e j =>
      match task_at s e j with
      | Some (Running search_results a) =>
          let '(t, st') := task_step search_results a (process s) in
          Some (System st' (set_task e j t (executors s)) (invocations s))
      | _ => None
      end
  | ev_return i =>
      match invocations s !! i with
      | Some (Invocation e j None) =>
          match task_at s e j with
          | Some (Finished _ r) =>
              Some (System (process s) (executors s)
                      (<[i := Invocation e j (Some r)]> (invocations s)))
          | _ => None
          end
      | _ => None
      end
  end.

(** The events of [evs] in order, from [s]; [None] when one is not enabled. *)
Fixpoint run (evs : list event) (s : system) : option system :=
  match evs with
  | [] => Some s
  | ev :: evs' =>
      match step ev s with
      | Some s' => run evs' s'
      | None => None
      end
  end.

(** The process before any invocation. *)
Definition boot (st : state) : system := System st [] [].

Definition returned (s : system) (i : nat) : option (result research_outcome) :=
  match invocations s !! i with
  | Some inv => inv_returned inv
  | None => None
  end.

(** The [search_results] location of a work item that has begun. *)
Definition task_trace (t : task) : option nat :=
  match t with
  | Pending _ => None
  | Running l _ | Finished l _ => Some l
  end.

(** Every invocation has a pool of its own: invocation [i] waits on the
    only work item of pool [i], which has one worker, and has returned only
    what that work item ended with. *)
Definition pools_private (s : system) : Prop :=
  length (executors s) = length (invocations s)
  ∧ (∀ i inv, invocations s !! i = Some inv -> inv_executor inv = i ∧ inv_future inv = 0)
  ∧ (∀ e ex, executors s !! e = Some ex -> max_workers ex = 1 ∧ length (work_queue ex) = 1)
  ∧ (∀ i r, returned s i = Some r -> ∃ l, task_at s i 0 = Some (Finished l r)).

(** The [search_results] lists of the work items that have begun are
    allocated, are none of the first [base] lists of the store, and differ
    from work item to work item. *)
Definition traces_separate (base : nat) (s : system) : Prop :=
  base ≤ length (store (process s))
  ∧ (∀ e j t l, task_at s e j = Some t -> task_trace t = Some l ->
       base ≤ l < length (store (process s)))
  ∧ (∀ e1 j1 e2 j2 t1 t2 l,
       task_at s e1 j1 = Some t1 -> task_at s e2 j2 = Some t2 ->
       task_trace t1 = Some l -> task_trace t2 = Some l -> e1 = e2 ∧ j1 = j2).

End Overlap.

(** ** The tool calls shown to the frontend *)

(** The [emit_tool_calls] list given to [copilotkit_customize_config]
    (main.py, lines 50-58). *)
Definition emit_tool_calls : list string :=
  ["research"; "write_todos"; "write_file"; "read_file"; "edit_file"].

(** An action of the coordinator's outgoing stream: a tool call by name,
    with its payload. *)
Record action := Action {
  action_name : string;
  action_payload : string;
}.

(** Modelled from the spec: the Observer Filter, whose code is in the
    copilotkit library and not in this repository.  Section 4.4: given the
    outgoing action stream and a fixed allow-list of action names, it
    forwards only allow-listed actions (by name) downstream and drops all
    others silently; a pure, stateless projection. *)
Definition observer_filter (allow_list : list string) (stream : list action) : list action :=
  filter (fun a => action_name a ∈ allow_list) stream.

(** ** What the agent was shown *)

Section Received.
Context {X : Externals}.

(** The result lists that the tool handed to the agent during
    [research_agent.invoke], in call order; a call that raised handed it
    none. *)
Fixpoint agent_received (tool : string -> Z -> M (list dict)) (a : agent) (st : state)
    : list (list dict) :=
  match a with
  | Final _ | Fault _ => []
  | ToolCall query max_results k =>
      let '(r, st') := tool query (default 5%Z max_results) st in
      match r with
      | Ok results => results :: agent_received tool (k r) st'
      | Raise _ => agent_received tool (k r) st'
      end
  end.

End Received.

(** ** The coordinator: [build_agent] (agent.py) *)

(** The agent framework behind [build_agent]: the compiled graph it hands
    back and the two calls that make it. *)
Class Framework := {
  graph : Type;
  (** [create_deep_agent(model=ChatOpenAI(model=model_name, temperature=0.7, api_key=api_key),
       system_prompt=MAIN_SYSTEM_PROMPT, tools=main_tools, middleware=[CopilotKitMiddleware()],
       checkpointer=MemorySaver())], given the model name, the key and the tools' names *)
  create_main_agent : string -> string -> list string -> result graph;
  (** [agent_graph.with_config({"recursion_limit": n})] *)
  with_config : graph -> Z -> graph;
}.

Section Coordinator.
Context {X : Externals} {F : Framework}.

(** [main_tools = [research]] (agent.py, line 80), by tool name. *)
Definition main_tools : list string := ["research"].

(** [build_agent()] (agent.py, lines 50-96). *)
Definition build_agent : M graph :=
  api_key ← os_environ_get "OPENAI_API_KEY";
  if negb (truthy api_key) then raise (RuntimeError "Missing OPENAI_API_KEY environment variable")
  else
    tavily_key ← os_environ_get "TAVILY_API_KEY";
    if negb (truthy tavily_key)
    then raise (RuntimeError "Missing TAVILY_API_KEY environment variable")
    else
      model_name ← os_environ_get "OPENAI_MODEL";
      agent_graph ← lift (create_main_agent (default "gpt-5.2" model_name)
                            (default "" api_key) main_tools);
      ret (with_config agent_graph 100).

End Coordinator.

(** ** The provider's answer as parsed JSON

    [TavilyClient.search] hands back the parsed JSON body of the provider's
    answer, and the query client reads it with [.get], a [for] loop and a
    slice, all inside its [try].  The definitions above follow the answers
    whose hits carry strings; the module below follows the same lines of
    tools.py on any JSON value, where each of these operations can raise. *)

(** A parsed JSON value: [None], [bool], [int], [float], [str], [list],
    [dict]. *)
#[warnings="-register-all"]
Inductive json : Type :=
| JNull
| JBool (b : bool)
| JInt (n : Z)
| JFloat (f : float)
| JStr (s : string)
| JList (l : list json)
| JDict (d : gmap string json).

(** The exception objects the interpreter raises when an operation does not
    apply to a value (their text depends on the interpreter's version):
    [AttributeError] for [v.name], [TypeError] for [for r in v], and the
    exception of [v[:n]] on a value that cannot be sliced.  All are
    subclasses of [Exception]. *)
Class Interpreter := {
  no_attribute : json -> string -> exn;
  not_iterable : json -> exn;
  bad_slice : json -> exn;
}.

(** [TavilyClient(api_key=key).search(query=..., max_results=..., include_raw_content=False,
    topic="general")], with its answer as parsed JSON. *)
Class JsonClient {X : Externals} := {
  search_json : string -> string -> Z -> world -> result json * world;
}.

Module Json.

(** A record of the query client: a [dict] with string keys. *)
Abbreviation record := (gmap string json).

Section Json.
Context {X : Externals} {I : Interpreter} {C : JsonClient}.

(** [bool(v)]. *)
Definition py_truthy (v : json) : bool :=
  match v with
  | JNull => false
  | JBool b => b
  | JInt n => negb (n =? 0)%Z
  | JFloat f => negb (PrimFloat.eqb f PrimFloat.zero)
  | JStr s => match s with "" => false | String _ _ => true end
  | JList l => match l with [] => false | _ :: _ => true end
  | JDict d => negb (bool_decide (d = ∅))
  end.

(** [v or d]. *)
Definition py_or (v d : json) : json := if py_truthy v then v else d.

(** [v.get(key, d)]: only a [dict] has [get]. *)
Definition py_get (v : json) (key : string) (d : json) : result json :=
  match v with
  | JDict m => Ok (default d (m !! key))
  | _ => Raise (no_attribute v "get")
  end.

(** The items of [for r in v]: the elements of a list, the keys of a
    [dict], the characters of a string.  (Python walks the keys of a [dict]
    in insertion order, which a [gmap] does not keep; the keys come here in
    the order of [map_to_list].) *)
Definition py_iter (v : json) : result (list json) :=
  match v with
  | JList l => Ok l
  | JDict m => Ok ((fun kv => JStr kv.1) <$> map_to_list m)
  | JStr s => Ok ((fun c => JStr (String c "")) <$> list_ascii_of_string s)
  | _ => Raise (not_iterable v)
  end.

(** [v[:n]]: strings and lists can be sliced. *)
Definition py_slice_to (n : nat) (v : json) : result json :=
  match v with
  | JStr s => Ok (JStr (slice_to n s))
  | JList l => Ok (JList (take n l))
  | _ => Raise (bad_slice v)
  end.

(** One formatted result (tools.py, lines 47-51); the three values are
    computed in this order. *)
Definition format_result (r : json) : result record :=
  match py_get r "url" (JStr "") with
  | Raise e => Raise e
  | Ok url =>
      match py_get r "title" (JStr "") with
      | Raise e => Raise e
      | Ok title =>
          match py_get r "content" JNull with
          | Raise e => Raise e
          | Ok content =>
              match py_slice_to 3000 (py_or content (JStr "")) with
              | Raise e => Raise e
              | Ok cut => Ok {[ "url" := url; "title" := title; "content" := cut ]}
              end
          end
      end
  end.

(** The loop of lines 46-51 over the items: it stops at the first item that
    raises. *)
Fixpoint format_results (items : list json) : result (list record) :=
  match items with
  | [] => Ok []
  | r :: items' =>
      match format_result r with
      | Raise e => Raise e
      | Ok formatted =>
          match format_results items' with
          | Raise e => Raise e
          | Ok rest => Ok (formatted :: rest)
          end
      end
  end.

(** Lines 44-54: [results.get("results", [])], the loop, the list. *)
Definition format_answer (results : json) : result (list record) :=
  match py_get results "results" (JList []) with
  | Raise e => Raise e
  | Ok hits =>
      match py_iter hits with
      | Raise e => Raise e
      | Ok items => format_results items
      end
  end.

(** The failure sentinel (tools.py, line 58). *)
Definition error_record (e : exn) : record := {[ "error" := JStr (exn_str e) ]}.

(** The condition of the comprehension on a captured record:
    ["url" in r and not r.get("error")]. *)
Definition is_source (r : record) : bool :=
  bool_decide (is_Some (r !! "url")) && negb (py_truthy (default JNull (r !! "error"))).

(** The element of the comprehension (tools.py, lines 158-163). *)
Definition source_record (r : record) : result record :=
  match r !! "url" with
  | None => Raise (KeyError "url")
  | Some url =>
      match py_slice_to 3000 (default (JStr "") (r !! "content")) with
      | Raise e => Raise e
      | Ok cut =>
          Ok {[ "url" := url;
                "title" := default (JStr "") (r !! "title");
                "content" := cut;
                "status" := JStr "found" ]}
      end
  end.

Definition client_search (key query : string) (max_results : Z) : M json :=
  fun st =>
    let '(r, w) := search_json key query max_results (external st) in
    (r, State (os_environ st) w (store st)).

(** [_do_internet_search(query, max_results)] (tools.py, lines 19-58). *)
Definition _do_internet_search (query : string) (max_results : Z) : M (list record) :=
  tavily_key ← os_environ_get "TAVILY_API_KEY";
  if negb (truthy tavily_key) then raise (RuntimeError "TAVILY_API_KEY not set")
  else
    try_except
      (results ← client_search (default "" tavily_key) query max_results;
       lift (format_answer results))
      (fun e => ret [error_record e]).

(** A hit the loop can format: a [dict] whose content, when it is not
    falsy, is a string or a list. *)
Definition formattable (r : json) : Prop :=
  ∃ m, r = JDict m
    ∧ (py_truthy (default JNull (m !! "content")) = false
       ∨ (∃ s, m !! "content" = Some (JStr s))
       ∨ (∃ l, m !! "content" = Some (JList l))).

End Json.
End Json.

(** A record and an answer of the string-level definitions, as JSON. *)
Definition json_of_record (r : dict) : Json.record := JStr <$> r.

Definition json_of_response (response : tavily_response) : json :=
  JDict match response_results response with
        | Some hits => {[ "results" := JList ((fun h => JDict (json_of_record h)) <$> hits) ]}
        | None => ∅
        end.

(** A provider of the string-level definitions as a provider of JSON. *)
Definition string_answers {X : Externals} : JsonClient := {|
  search_json := fun key query max_results w =>
    match TavilyClient_search key query max_results w with
    | (Ok response, w') => (Ok (json_of_response response), w')
    | (Raise e, w') => (Raise e, w')
    end
|}.

(** ** A concrete provider and agent, for running the tools *)

Module Demo.

Definition hit_a : dict :=
  {[ "url" := "https://a.example"; "title" := "A"; "content" := "alpha"; "score" := "0.9" ]}.
(** A hit the provider sent without a URL. *)
Definition hit_b : dict := {[ "title" := "B"; "content" := "beta" ]}.
Definition hit_c : dict := {[ "url" := "https://c.example" ]}.
(** A hit whose content has 3005 characters. *)
Definition hit_long : dict :=
  {[ "url" := "https://long.example";
     "content" := string_of_list_ascii (replicate 3005 "x"%char) ]}.

(** The world counts the provider calls made so far.  The provider fails on
    the query ["fail"], sends every hit it has on ["greedy"], whatever
    [max_results] is, sends the long hit on ["long"], and otherwise at most
    [max_results] of its three hits.  The agent raises on ["boom"]; on
    ["mixed"] it searches twice, for ["fail"] and then for ["topic"] with
    [max_results=2]; otherwise it searches once for the query it is given. *)
#[export] Instance demo : Externals := {|
  world := nat;
  TavilyClient_search := fun key query max_results w =>
    if String.eqb query "fail" then (Raise (Exn "ConnectionError" "network down"), S w)
    else if String.eqb query "greedy" then (Ok (TavilyResponse (Some [hit_a; hit_b; hit_c])), S w)
    else if String.eqb query "long" then (Ok (TavilyResponse (Some [hit_long])), S w)
    else (Ok (TavilyResponse (Some (take (Z.to_nat max_results) [hit_a; hit_b; hit_c]))), S w);
  create_deep_agent_invoke := fun model_name api_key query w =>
    if String.eqb query "boom" then Fault (Exn "ValueError" "boom")
    else if String.eqb query "mixed" then
      ToolCall "fail" None (fun _ =>
        ToolCall "topic" (Some 2%Z) (fun r =>
          match r with
          | Ok _ => Final "findings on mixed"
          | Raise e => Fault e
          end))
    else ToolCall query None (fun r =>
           match r with
           | Ok _ => Final ("findings on " +:+ query)
           | Raise e => Fault e
           end)
|}.

Definition environ : gmap string string :=
  {[ "TAVILY_API_KEY" := "tvly-demo"; "OPENAI_API_KEY" := "sk-demo" ]}.

(** A process with both keys set, no provider call made and one list
    object already in the store. *)
Definition st0 : state := State environ 0%nat [[hit_c]].

(** A process without [TAVILY_API_KEY]. *)
Definition st_nokey : state := State {[ "OPENAI_API_KEY" := "sk-demo" ]} 0%nat [].

(** What [research "topic"] captures and returns from [st0], and the state
    it leaves. *)
Definition captured_topic : list dict := [format_result hit_a; format_result hit_b; format_result hit_c].
Definition source_a : dict :=
  {[ "url" := "https://a.example"; "title" := "A"; "content" := "alpha"; "status" := "found" ]}.
Definition source_b : dict :=
  {[ "url" := ""; "title" := "B"; "content" := "beta"; "status" := "found" ]}.
Definition source_c : dict :=
  {[ "url" := "https://c.example"; "title" := ""; "content" := ""; "status" := "found" ]}.
Definition out_topic : research_outcome :=
  ResearchOutcome "findings on topic" [source_a; source_b; source_c].
Definition st_topic : state := State environ 1%nat [[hit_c]; captured_topic].

(** What [research "mixed"] captures and returns from [st0]: the sentinel of
    the failed search and two hits, of which the two hits become sources. *)
Definition captured_mixed : list dict :=
  [error_record (Exn "ConnectionError" "network down");
   format_result hit_a; format_result hit_b].
Definition out_mixed : research_outcome :=
  ResearchOutcome "findings on mixed" [source_a; source_b].
Definition st_mixed : state := State environ 2%nat [[hit_c]; captured_mixed].

(** What [research "fail"] returns from [st0]: the provider call fails, the
    sentinel is captured and no source is kept. *)
Definition out_fail : research_outcome := ResearchOutcome "findings on fail" [].
Definition st_fail : state :=
  State environ 1%nat [[hit_c]; [error_record (Exn "ConnectionError" "network down")]].

(** Two overlapping invocations: the second is issued while the first is in
    flight, both nested runs are started, and the second runs to its end and
    returns while the first has not moved. *)
Definition both_started : list event :=
  [ev_research "first"; ev_research "second"; ev_start 0; ev_start 1].
Definition second_overtakes : list event :=
  both_started ++ [ev_step 1 0; ev_step 1 0; ev_return 1].

(** The systems these two runs reach from [boot st0]. *)
Definition agent_of (query : string) : agent :=
  create_deep_agent_invoke "gpt-5.2" (Some "sk-demo") query 0%nat.
Definition out_second : research_outcome :=
  ResearchOutcome "findings on second" [source_a; source_b; source_c].
Definition s_both_started : system :=
  System (State environ 0%nat [[hit_c]; []; []])
    [Executor 1 [Running 1 (agent_of "first")]; Executor 1 [Running 2 (agent_of "second")]]
    [Invocation 0 0 None; Invocation 1 0 None].
Definition s_second_returned : system :=
  System (State environ 1%nat [[hit_c]; []; captured_topic])
    [Executor 1 [Running 1 (agent_of "first")]; Executor 1 [Finished 2 (Ok out_second)]]
    [Invocation 0 0 None; Invocation 1 0 (Some (Ok out_second))].

(** A framework whose graphs record how they were made; it refuses the
    model name ["no-such-model"]. *)
#[export] Instance demo_framework : Framework := {|
  graph := string * string * list string * option Z;
  create_main_agent := fun model_name api_key tools =>
    if String.eqb model_name "no-such-model"
    then Raise (Exn "NotFoundError" "model not found")
    else Ok (model_name, api_key, tools, None);
  with_config := fun g n => (g.1, Some n)
|}.

(** The exceptions of the demo interpreter, with CPython's texts. *)
Definition type_name (v : json) : string :=
  match v with
  | JNull => "NoneType" | JBool _ => "bool" | JInt _ => "int" | JFloat _ => "float"
  | JStr _ => "str" | JList _ => "list" | JDict _ => "dict"
  end.
#[export] Instance demo_interpreter : Interpreter := {|
  no_attribute := fun v name =>
    Exn "AttributeError" ("'" +:+ type_name v +:+ "' object has no attribute '" +:+ name +:+ "'");
  not_iterable := fun v => Exn "TypeError" ("'" +:+ type_name v +:+ "' object is not iterable");
  bad_slice := fun v =>
    match v with
    | JDict _ => Exn "TypeError" "unhashable type: 'slice'"
    | _ => Exn "TypeError" ("'" +:+ type_name v +:+ "' object is not subscriptable")
    end
|}.

(** A hit with a null [url], a number as [title] and a score, and two
    answers the loop cannot format: one whose ["results"] is null, one whose
    second hit has a number as content. *)
Definition hit_null : json :=
  JDict {[ "url" := JNull; "title" := JInt 7; "content" := JStr "gamma";
           "score" := JFloat 0.5%float ]}.
Definition answer_null_results : json := JDict {[ "results" := JNull ]}.
Definition answer_bad_content : json :=
  JDict {[ "results" := JList [JDict (json_of_record hit_a);
                               JDict {[ "url" := JStr "https://d.example";
                                        "content" := JInt 42 ]}] ]}.

(** A provider that sends [hit_null] on ["nulls"], the two answers above on
    ["null-results"] and ["bad-content"], and otherwise the answers of the
    demo provider. *)
Definition demo_json_odd : JsonClient := {|
  search_json := fun key query max_results w =>
    if String.eqb query "nulls" then (Ok (JDict {[ "results" := JList [hit_null] ]}), S w)
    else if String.eqb query "null-results" then (Ok answer_null_results, S w)
    else if String.eqb query "bad-content" then (Ok answer_bad_content, S w)
    else @search_json demo string_answers key query max_results w
|}.

(** The state after one provider call from [st0]. *)
Definition st_search : state := State environ 1%nat [[hit_c]].

(** What the query client makes of [hit_null]. *)
Definition record_null : Json.record :=
  {[ "url" := JNull; "title" := JInt 7; "content" := JStr "gamma" ]}.

(** The query client on JSON with the demo interpreter: on the demo
    provider's answers, and on the provider above. *)
Definition search_strings : string -> Z -> M (list Json.record) :=
  @Json._do_internet_search demo demo_interpreter string_answers.
Definition search_odd : string -> Z -> M (list Json.record) :=
  @Json._do_internet_search demo demo_interpreter demo_json_odd.

(** A process with [OPENAI_API_KEY] set to the empty string. *)
Definition st_emptykey : state :=
  State {[ "OPENAI_API_KEY" := ""; "TAVILY_API_KEY" := "tvly-demo" ]} 0%nat [].

(** The graph [build_agent] returns in [st0]. *)
Definition graph_built : graph := ("gpt-5.2", "sk-demo", ["research"], Some 100%Z).

End Demo.

(** * Properties *)

(** ** Strings and records *)

Lemma slice_to_length (n : nat) (s : string) : (String.length (slice_to n s) ≤ n)%nat.
Proof.
  revert s. induction n as [|n IH]; intros [|c s]; simpl; try lia.
  specialize (IH s). lia.
Qed.

Lemma slice_to_short (n : nat) (s : string) : (String.length s ≤ n)%nat -> slice_to n s = s.
Proof.
  revert s. induction n as [|n IH]; intros [|c s]; simpl; intros Hlen; try reflexivity; try lia.
  f_equal. apply IH. lia.
Qed.

Lemma truthy_Some (s : string) : truthy (Some s) = true <-> s ≠ "".
Proof. destruct s; simpl; split; congruence. Qed.

Lemma py_or_None (d : string) : py_or None d = d.
Proof. reflexivity. Qed.


Section ClientProofs.
Context {X : Externals}.

Lemma format_result_url (r : dict) : format_result r !! "url" = Some (dict_get r "url" "").
Proof. unfold format_result. apply lookup_insert_eq. Qed.

Lemma format_result_title (r : dict) : format_result r !! "title" = Some (dict_get r "title" "").
Proof.
  unfold format_result. rewrite lookup_insert_ne by string_ne. apply lookup_insert_eq.
Qed.

Lemma format_result_content (r : dict) :
  format_result r !! "content" = Some (slice_to 3000 (py_or (r !! "content") "")).
Proof.
  unfold format_result. do 2 (rewrite lookup_insert_ne by string_ne).
  apply lookup_singleton_eq.
Qed.

Lemma format_result_dom (r : dict) :
  dom (format_result r) = ({[ "url"; "title"; "content" ]} : gset string).
Proof. unfold format_result. rewrite !dom_insert_L, dom_singleton_L. set_solver. Qed.

Lemma format_result_no_error (r : dict) : format_result r !! "error" = None.
Proof.
  apply not_elem_of_dom. rewrite format_result_dom.
  rewrite !elem_of_union, !elem_of_singleton. intros [[H|H]|H]; inversion H.
Qed.

Lemma error_record_dom (e : exn) : dom (error_record e) = ({[ "error" ]} : gset string).
Proof. unfold error_record. apply dom_singleton_L. Qed.

Lemma error_record_no_url (e : exn) : error_record e !! "url" = None.
Proof. unfold error_record. apply lookup_singleton_ne. string_ne. Qed.

(** The query client without its key: the guard of lines 31-33 raises, and
    neither the provider nor the store is touched. *)
Lemma do_search_key_missing (query : string) (max_results : Z) (st : state) :
  truthy (os_environ st !! "TAVILY_API_KEY") = false ->
  _do_internet_search query max_results st
  = (Raise (RuntimeError "TAVILY_API_KEY not set"), st).
Proof.
  intros Hkey. unfold _do_internet_search, mbind, M_bind, bind, os_environ_get.
  rewrite Hkey. reflexivity.
Qed.

(** The query client with its key: one provider call, whose answer is
    formatted hit by hit and whose failure becomes the sentinel. *)
Lemma do_search_with_key (query : string) (max_results : Z) (st : state) (key : string) :
  os_environ st !! "TAVILY_API_KEY" = Some key -> key ≠ "" ->
  _do_internet_search query max_results st
  = match TavilyClient_search key query max_results (external st) with
    | (Ok response, w) =>
        (Ok (format_result <$> default [] (response_results response)),
         State (os_environ st) w (store st))
    | (Raise e, w) => (Ok [error_record e], State (os_environ st) w (store st))
    end.
Proof.
  intros Hkey Hne. apply truthy_Some in Hne.
  unfold _do_internet_search, mbind, M_bind, bind, os_environ_get.
  rewrite Hkey, Hne. simpl.
  unfold try_except, bind, client_search, mret, M_ret, ret. simpl.
  destruct (TavilyClient_search key query max_results (external st)) as [[response|e] w];
    reflexivity.
Qed.

(** The query client never writes to the store or to the environment. *)
Lemma do_search_frame (query : string) (max_results : Z) (st : state) :
  os_environ (_do_internet_search query max_results st).2 = os_environ st
  ∧ store (_do_internet_search query max_results st).2 = store st.
Proof.
  destruct (truthy (os_environ st !! "TAVILY_API_KEY")) eqn:Hkey.
  - destruct (os_environ st !! "TAVILY_API_KEY") as [key|] eqn:Hlook; [|discriminate].
    apply truthy_Some in Hkey.
    rewrite (do_search_with_key _ _ _ key Hlook Hkey).
    destruct (TavilyClient_search key query max_results (external st)) as [[response|e] w];
      split; reflexivity.
  - rewrite do_search_key_missing by assumption. split; reflexivity.
Qed.

(** Every record the query client returns is a formatted hit or the
    failure sentinel. *)
Lemma do_search_records (query : string) (max_results : Z) (st : state) (rs : list dict) :
  (_do_internet_search query max_results st).1 = Ok rs ->
  Forall (fun r => (∃ hit, r = format_result hit) ∨ (∃ e, r = error_record e)) rs.
Proof.
  intros Hrun.
  destruct (truthy (os_environ st !! "TAVILY_API_KEY")) eqn:Hkey.
  - destruct (os_environ st !! "TAVILY_API_KEY") as [key|] eqn:Hlook; [|discriminate].
    apply truthy_Some in Hkey.
    rewrite (do_search_with_key _ _ _ key Hlook Hkey) in Hrun.
    destruct (TavilyClient_search key query max_results (external st)) as [[response|e] w];
      simpl in Hrun; injection Hrun as <-.
    + apply Forall_fmap, Forall_forall. intros hit _. left. eauto.
    + constructor; [right; eauto | constructor].
  - rewrite do_search_key_missing in Hrun by assumption. discriminate.
Qed.

(** C3, as amended.  With [TAVILY_API_KEY] set to a non-empty value the
    query client returns normally for every query and limit, and when the
    provider call fails the returned list has exactly one element, which
    carries [error] (the exception's text) and no other key.  With the key
    unset or empty the client raises [RuntimeError("TAVILY_API_KEY not set")]
    to its caller before any provider call. *)
Theorem search_returns_unless_key_missing (query : string) (max_results : Z) (st : state) :
  (∀ key, os_environ st !! "TAVILY_API_KEY" = Some key -> key ≠ "" ->
     ∃ rs, (_do_internet_search query max_results st).1 = Ok rs
       ∧ ∀ e w, TavilyClient_search key query max_results (external st) = (Raise e, w) ->
           length rs = 1
           ∧ ∀ r, r ∈ rs ->
               r !! "error" = Some (exn_str e) ∧ dom r = ({[ "error" ]} : gset string))
  ∧ (truthy (os_environ st !! "TAVILY_API_KEY") = false ->
       _do_internet_search query max_results st
       = (Raise (RuntimeError "TAVILY_API_KEY not set"), st)).
Proof.
  split; [|apply do_search_key_missing].
  intros key Hkey Hne. rewrite (do_search_with_key _ _ _ key Hkey Hne).
  destruct (TavilyClient_search key query max_results (external st)) as [[response|e] w] eqn:Hcall.
  - eexists. split; [reflexivity|]. intros e' w' [=].
  - eexists. split; [reflexivity|]. intros e' w' [= <- <-].
    split; [reflexivity|]. intros r Hr. apply list_elem_of_singleton in Hr as ->.
    split; [apply lookup_singleton_eq | apply error_record_dom].
Qed.

End ClientProofs.

(** ** The sources comprehension *)

Lemma is_source_spec (r : dict) :
  is_source r = true <-> is_Some (r !! "url") ∧ truthy (r !! "error") = false.
Proof.
  unfold is_source, dict_contains. rewrite andb_true_iff, negb_true_iff, bool_decide_eq_true.
  reflexivity.
Qed.

Lemma source_record_ok (r : dict) :
  is_source r = true ->
  ∃ url, r !! "url" = Some url
    ∧ source_record r
      = Ok {[ "url" := url;
              "title" := dict_get r "title" "";
              "content" := slice_to 3000 (dict_get r "content" "");
              "status" := "found" ]}.
Proof.
  intros [[url Hurl] _]%is_source_spec. exists url. split; [assumption|].
  unfold source_record, dict_getitem. rewrite Hurl. reflexivity.
Qed.

(** What a source record looks like, whatever record it was made from. *)
Lemma source_record_shape (r s : dict) :
  source_record r = Ok s ->
  s !! "url" = r !! "url"
  ∧ s !! "title" = Some (dict_get r "title" "")
  ∧ s !! "content" = Some (slice_to 3000 (dict_get r "content" ""))
  ∧ s !! "status" = Some "found"
  ∧ dom s = ({[ "url"; "title"; "content"; "status" ]} : gset string).
Proof.
  unfold source_record, dict_getitem. destruct (r !! "url") as [url|] eqn:Hurl; [|discriminate].
  intros Hs. assert (s = {[ "url" := url;
              "title" := dict_get r "title" "";
              "content" := slice_to 3000 (dict_get r "content" "");
              "status" := "found" ]}) as -> by congruence.
  split; [|split; [|split; [|split]]].
  - apply lookup_insert_eq.
  - rewrite lookup_insert_ne by string_ne. apply lookup_insert_eq.
  - do 2 (rewrite lookup_insert_ne by string_ne). apply lookup_insert_eq.
  - do 3 (rewrite lookup_insert_ne by string_ne). apply lookup_singleton_eq.
  - rewrite !dom_insert_L, dom_singleton_L. set_solver.
Qed.

Lemma comprehension_total (f : dict -> result dict) (rs : list dict) :
  (∀ r, r ∈ rs -> ∃ s, f r = Ok s) ->
  ∃ ss, comprehension f rs = Ok ss ∧ Forall2 (fun r s => f r = Ok s) rs ss.
Proof.
  induction rs as [|r rs IH]; intros Hall; simpl.
  - exists []. split; [reflexivity | constructor].
  - destruct (Hall r) as [s Hs]; [left|].
    destruct IH as (ss & Hss & Hrel).
    { intros r' Hr'. apply Hall. right. assumption. }
    exists (s :: ss). rewrite Hs, Hss. split; [reflexivity | constructor; assumption].
Qed.

(** The comprehension never raises: the guard [is_source] keeps [r["url"]]
    from a [KeyError]. *)
Lemma format_sources_total (captured : list dict) :
  ∃ srcs, format_sources captured = Ok srcs
    ∧ Forall2 (fun r s => source_record r = Ok s)
        (filter (fun r => is_source r = true) captured) srcs.
Proof.
  unfold format_sources. apply comprehension_total.
  intros r [Hsrc _]%list_elem_of_filter.
  destruct (source_record_ok r Hsrc) as (url & _ & ->). eauto.
Qed.

Section ResearchProofs.
Context {X : Externals}.

(** ** The capturing wrapper *)

Lemma tracked_unfold (l : nat) (query : string) (max_results : Z) (st : state) :
  internet_search_tracked l query max_results st
  = match _do_internet_search query max_results st with
    | (Ok rs, st') =>
        (Ok rs, State (os_environ st') (external st')
                  (alter (fun old => old ++ rs) l (store st')))
    | (Raise e, st') => (Raise e, st')
    end.
Proof.
  unfold internet_search_tracked, mbind, M_bind, bind.
  destruct (_do_internet_search query max_results st) as [[rs|e] st']; reflexivity.
Qed.

Lemma alter_extend_nil (l : nat) (s : list (list dict)) :
  alter (fun old => old ++ []) l s = s.
Proof. apply list_alter_id. intros old. apply app_nil_r. Qed.

Lemma alter_extend_extend (l : nat) (xs ys : list dict) (s : list (list dict)) :
  alter (fun old => old ++ ys) l (alter (fun old => old ++ xs) l s)
  = alter (fun old => old ++ (xs ++ ys)) l s.
Proof.
  rewrite list_alter_alter_eq. apply list_alter_ext; [|reflexivity].
  intros old _. simpl. symmetry. apply app_assoc.
Qed.

(** One call of the wrapper: the environment stays, and the list at [l]
    grows by exactly the records handed back (by nothing when the query
    client raised). *)
Lemma tracked_store (l : nat) (query : string) (max_results : Z) (st : state) :
  os_environ (internet_search_tracked l query max_results st).2 = os_environ st
  ∧ store (internet_search_tracked l query max_results st).2
    = alter (fun old => old ++
               match (internet_search_tracked l query max_results st).1 with
               | Ok rs => rs
               | Raise _ => []
               end) l (store st).
Proof.
  rewrite tracked_unfold.
  destruct (do_search_frame query max_results st) as [Henv Hstore].
  destruct (_do_internet_search query max_results st) as [[rs|e] st']; simpl in *.
  - rewrite Hstore. split; [assumption | reflexivity].
  - rewrite alter_extend_nil. split; assumption.
Qed.

(** A whole agent run over the wrapper: the list at [l] grows by some
    records, each a formatted hit or a failure sentinel, and no other list
    changes. *)
Lemma agent_invoke_store (l : nat) (a : agent) (st : state) :
  os_environ (agent_invoke (internet_search_tracked l) a st).2 = os_environ st
  ∧ ∃ added,
      store (agent_invoke (internet_search_tracked l) a st).2
      = alter (fun old => old ++ added) l (store st)
      ∧ Forall (fun r => (∃ hit, r = format_result hit) ∨ (∃ e, r = error_record e)) added.
Proof.
  revert st. induction a as [content|e|query max_results k IH]; intros st; simpl.
  - split; [reflexivity|]. exists []. rewrite alter_extend_nil. split; [reflexivity | constructor].
  - split; [reflexivity|]. exists []. rewrite alter_extend_nil. split; [reflexivity | constructor].
  - unfold mbind, M_bind, bind, outcome_of.
    pose proof (tracked_store l query (default 5%Z max_results) st) as [Henv Hstore].
    pose proof (tracked_unfold l query (default 5%Z max_results) st) as Hunf.
    pose proof (do_search_records query (default 5%Z max_results) st) as Hrec.
    destruct (internet_search_tracked l query (default 5%Z max_results) st) as [r st1] eqn:Hcall.
    simpl in *.
    destruct (IH r st1) as (Henv' & added & Hadded & Hshape).
    split; [congruence|].
    exists (match r with Ok rs => rs | Raise _ => [] end ++ added).
    rewrite Hadded, Hstore, alter_extend_extend. split; [reflexivity|].
    apply Forall_app. split; [|assumption].
    destruct r as [rs|e]; [|constructor].
    apply Hrec.
    destruct (_do_internet_search query (default 5%Z max_results) st) as [[rs'|e'] st'];
      simpl in *; congruence.
Qed.

(** ** The nested run and the tool *)

Lemma nested_start_unfold (query : string) (st : state) :
  nested_start query st
  = (Ok (length (store st),
         create_deep_agent_invoke (default "gpt-5.2" (os_environ st !! "OPENAI_MODEL"))
           (os_environ st !! "OPENAI_API_KEY") query (external st)),
     State (os_environ st) (external st) (store st ++ [[]])).
Proof. reflexivity. Qed.

Lemma nested_finish_unfold (l : nat) (content : string) (st : state) :
  nested_finish l content st
  = (match format_sources (default [] (store st !! l)) with
     | Ok srcs => Ok (ResearchOutcome content srcs)
     | Raise e => Raise e
     end, st).
Proof.
  unfold nested_finish, mbind, M_bind, bind, list_read, lift, mret, M_ret, ret.
  destruct (format_sources (default [] (store st !! l))); reflexivity.
Qed.

(** The pool and its future add nothing to the nested run: [research]
    returns what [_run_research_isolated] returns and raises what it raises. *)
Lemma research_is_nested_run (query : string) (st : state) :
  research query st = _run_research_isolated query st.
Proof.
  unfold research, executor_submit, future_result, mbind, M_bind, bind, outcome_of, lift,
    mret, M_ret, ret.
  destruct (_run_research_isolated query st) as [[out|e] st']; reflexivity.
Qed.

Lemma research_unfold (query : string) (st : state) :
  research query st
  = match nested_start query st with
    | (Ok (l, a), st1) =>
        match agent_invoke (internet_search_tracked l) a st1 with
        | (Ok content, st2) => nested_finish l content st2
        | (Raise e, st2) => (Raise e, st2)
        end
    | (Raise e, st1) => (Raise e, st1)
    end.
Proof.
  rewrite research_is_nested_run.
  unfold _run_research_isolated, mbind, M_bind, bind.
  rewrite nested_start_unfold.
  destruct (agent_invoke _ _ _) as [[content|e] st2]; reflexivity.
Qed.

(** What a returned [ResearchOutcome] is made of: the list allocated for
    this call, at the first free location, holds the captured records, each
    a formatted hit or a failure sentinel, and [sources] is the
    comprehension over them. *)
Lemma research_returns (query : string) (st : state) (out : research_outcome) (st' : state) :
  research query st = (Ok out, st') ->
  ∃ captured,
    store st' !! length (store st) = Some captured
    ∧ Forall (fun r => (∃ hit, r = format_result hit) ∨ (∃ e, r = error_record e)) captured
    ∧ format_sources captured = Ok (sources out).
Proof.
  rewrite research_unfold, nested_start_unfold.
  set (a := create_deep_agent_invoke _ _ _ _).
  set (st1 := State _ _ _).
  destruct (agent_invoke_store (length (store st)) a st1) as (_ & added & Hstore & Hshape).
  destruct (agent_invoke _ a st1) as [[content|e] st2]; [|discriminate].
  rewrite nested_finish_unfold. simpl in Hstore.
  assert (store st2 !! length (store st) = Some added) as Hl.
  { rewrite Hstore, list_lookup_alter_eq. subst st1. simpl.
    rewrite list_lookup_middle by reflexivity. reflexivity. }
  rewrite Hl. simpl.
  destruct (format_sources added) as [srcs|e] eqn:Hsrcs; [|discriminate].
  intros [= <- <-]. exists added. auto.
Qed.

(** Every source of a returned outcome is the source record of a captured
    record that passed the filter. *)
Lemma research_source_origin (query : string) (st : state)
    (out : research_outcome) (st' : state) (s : dict) :
  research query st = (Ok out, st') -> s ∈ sources out ->
  ∃ r, is_source r = true ∧ source_record r = Ok s.
Proof.
  intros (captured & _ & _ & Hsrcs)%research_returns Hs.
  destruct (format_sources_total captured) as (srcs & Hsrcs' & Hrel).
  assert (srcs = sources out) as -> by congruence.
  apply list_elem_of_lookup in Hs as [i Hi].
  destruct (Forall2_lookup_r _ _ _ _ _ Hrel Hi) as (r & Hr & Hrs).
  exists r. split; [|assumption].
  apply list_elem_of_lookup_2, list_elem_of_filter in Hr. tauto.
Qed.

(** C6.  Every call of the wrapped query client that returns has appended
    the raw result list of [_do_internet_search] to the captured list and
    returns that same list, sentinels included; the other lists are left as
    they were.  When the query client raises, nothing is appended. *)
Theorem tracked_appends_what_it_returns (l : nat) (query : string) (max_results : Z)
    (st : state) :
  match internet_search_tracked l query max_results st with
  | (Ok results, st') =>
      (_do_internet_search query max_results st).1 = Ok results
      ∧ (∀ old, store st !! l = Some old -> store st' !! l = Some (old ++ results))
      ∧ (∀ l', l' ≠ l -> store st' !! l' = store st !! l')
  | (Raise e, st') =>
      (_do_internet_search query max_results st).1 = Raise e ∧ store st' = store st
  end.
Proof.
  rewrite tracked_unfold.
  destruct (do_search_frame query max_results st) as [_ Hstore].
  destruct (_do_internet_search query max_results st) as [[rs|e] st1]; simpl in *.
  - split; [reflexivity|]. rewrite Hstore. split.
    + intros old Hold. rewrite list_lookup_alter_eq, Hold. reflexivity.
    + intros l' Hne. apply list_lookup_alter_ne. congruence.
  - split; [reflexivity | assumption].
Qed.

(** C2, as amended.  When the nested Task Executor raises [e], the
    [research] call raises that same exception [e] to its caller:
    [future.result()] raises it again and nothing catches or wraps it.
    Conversely an exception that [research] raises is the one the nested run
    raised. *)
Theorem nested_fault_reaches_caller_unchanged (query : string) (st : state)
    (l : nat) (a : agent) (st1 : state) (e : exn) (st2 : state) :
  nested_start query st = (Ok (l, a), st1) ->
  agent_invoke (internet_search_tracked l) a st1 = (Raise e, st2)
  <-> research query st = (Raise e, st2).
Proof.
  intros Hstart. rewrite research_unfold, Hstart. split.
  - intros ->. reflexivity.
  - destruct (agent_invoke _ a st1) as [[content|e'] st2']; [|congruence].
    rewrite nested_finish_unfold.
    destruct (format_sources_total (default [] (store st2' !! l))) as (srcs & -> & _).
    discriminate.
Qed.

(** C4.  A call of [research] returns whenever its nested agent returns:
    error markers and records without [url] are dropped, never a reason to
    fail.  The sources of the returned outcome are the captured records that
    have a [url] and no [error], in capture order: they are, position by
    position, the source records of the subsequence [kept] of the call's
    captured list that the filter keeps; no kept record has [error] set, and
    every source has a [url] key and no [error] key. *)
Theorem sources_valid_in_capture_order (query : string) (st : state)
    (l : nat) (a : agent) (st1 : state) :
  nested_start query st = (Ok (l, a), st1) ->
  (∀ content st2,
     agent_invoke (internet_search_tracked l) a st1 = (Ok content, st2) ->
     ∃ out, research query st = (Ok out, st2) ∧ summary out = content)
  ∧ (∀ out st', research query st = (Ok out, st') ->
     ∃ captured kept,
       store st' !! length (store st) = Some captured
       ∧ kept = filter (fun r => is_source r = true) captured
       ∧ kept `sublist_of` captured
       ∧ (∀ r, r ∈ kept <->
               r ∈ captured ∧ is_Some (r !! "url") ∧ truthy (r !! "error") = false)
       ∧ (∀ r, r ∈ kept -> r !! "error" = None)
       ∧ Forall2 (fun r s => source_record r = Ok s) kept (sources out)
       ∧ (∀ s, s ∈ sources out -> is_Some (s !! "url") ∧ s !! "error" = None)).
Proof.
  intros Hstart. split.
  - intros content st2 Hagent. rewrite research_unfold, Hstart, Hagent.
    rewrite nested_finish_unfold.
    destruct (format_sources_total (default [] (store st2 !! l))) as (srcs & -> & _).
    eexists. split; reflexivity.
  - intros out st' Hrun.
    pose proof Hrun as (captured & Hl & Hshape & Hsrcs)%research_returns.
    destruct (format_sources_total captured) as (srcs & Hsrcs' & Hrel).
    assert (srcs = sources out) as -> by congruence.
    exists captured, (filter (fun r => is_source r = true) captured).
    split; [assumption|]. split; [reflexivity|]. split; [apply sublist_filter|].
    split; [|split; [|split]].
    + intros r. rewrite list_elem_of_filter, is_source_spec. tauto.
    + intros r [[[url Hurl] _]%is_source_spec Hr]%list_elem_of_filter.
      rewrite Forall_forall in Hshape. destruct (Hshape r Hr) as [[hit ->]|[e ->]].
      * apply format_result_no_error.
      * rewrite error_record_no_url in Hurl. discriminate.
    + assumption.
    + intros s Hs.
      destruct (research_source_origin _ _ _ _ _ Hrun Hs) as (r & Hsrc & Hrec).
      apply source_record_shape in Hrec as (Hurl & _ & _ & _ & Hdom).
      split.
      * rewrite Hurl. apply is_source_spec in Hsrc. tauto.
      * apply not_elem_of_dom. rewrite Hdom.
        rewrite !elem_of_union, !elem_of_singleton. intros [[[H|H]|H]|H]; inversion H.
Qed.


End ResearchProofs.

(** ** Overlapping invocations: what every reachable system satisfies *)

Section OverlapProofs.
Context {X : Externals}.

Lemma next_pending_Some (q : list task) (j : nat) (query : string) :
  next_pending q = Some (j, query) -> q !! j = Some (Pending query).
Proof.
  revert j. induction q as [|t q IH]; intros j; simpl; [discriminate|].
  destruct t as [query'| |].
  - intros [= <- <-]. reflexivity.
  - destruct (next_pending q) as [[j' query']|]; [|discriminate].
    intros [= <- <-]. simpl. apply IH. reflexivity.
  - destruct (next_pending q) as [[j' query']|]; [|discriminate].
    intros [= <- <-]. simpl. apply IH. reflexivity.
Qed.

Lemma task_in_set_task (exs : list executor) (e j : nat) (t : task) (e' j' : nat) :
  task_in (set_task e j t exs) e' j'
  = if decide (e = e' ∧ j = j') then (fun _ => t) <$> task_in exs e j
    else task_in exs e' j'.
Proof.
  unfold task_in, set_task. rewrite list_lookup_alter.
  destruct (decide (e = e')) as [<-|Hne].
  - destruct (exs !! e) as [ex|]; simpl.
    + rewrite list_lookup_insert.
      destruct (decide (j = j')) as [<-|Hnj].
      * rewrite (decide_True (P := e = e ∧ j = j)) by auto.
        destruct (work_queue ex !! j) as [t0|] eqn:Hj; simpl.
        -- apply lookup_lt_Some in Hj. rewrite decide_True by auto. reflexivity.
        -- apply lookup_ge_None in Hj. rewrite decide_False by lia. reflexivity.
      * rewrite (decide_False (P := j = j' ∧ j < length (work_queue ex))) by tauto.
        rewrite (decide_False (P := e = e ∧ j = j')) by tauto. reflexivity.
    + destruct (decide (e = e ∧ j = j')); reflexivity.
  - rewrite decide_False by tauto. reflexivity.
Qed.

Lemma task_in_snoc (exs : list executor) (ex : executor) (e j : nat) (t : task) :
  task_in (exs ++ [ex]) e j = Some t ->
  task_in exs e j = Some t ∨ (e = length exs ∧ work_queue ex !! j = Some t).
Proof.
  unfold task_in. destruct ((exs ++ [ex]) !! e) as [ex'|] eqn:He; [|discriminate].
  apply lookup_snoc_Some in He as [[Hlt He]|[-> ->]].
  - rewrite He. auto.
  - auto.
Qed.

Lemma task_in_snoc_old (exs : list executor) (ex : executor) (e j : nat) (t : task) :
  task_in exs e j = Some t -> task_in (exs ++ [ex]) e j = Some t.
Proof.
  unfold task_in. destruct (exs !! e) as [ex'|] eqn:He; [|discriminate].
  rewrite lookup_app_l by (eapply lookup_lt_Some; eassumption).
  rewrite He. auto.
Qed.

Lemma set_task_lookup (exs : list executor) (e j : nat) (t : task) (e' : nat) (ex' : executor) :
  set_task e j t exs !! e' = Some ex' ->
  ∃ ex, exs !! e' = Some ex ∧ max_workers ex' = max_workers ex
        ∧ length (work_queue ex') = length (work_queue ex).
Proof.
  unfold set_task. rewrite list_lookup_alter.
  destruct (decide (e = e')) as [<-|Hne]; [|eauto].
  destruct (exs !! e) as [ex|]; simpl; [|discriminate].
  intros [= <-]. exists ex. simpl. rewrite length_insert. auto.
Qed.

Lemma task_start_unfold (query : string) (st : state) :
  task_start query st
  = (Running (length (store st))
       (create_deep_agent_invoke (default "gpt-5.2" (os_environ st !! "OPENAI_MODEL"))
          (os_environ st !! "OPENAI_API_KEY") query (external st)),
     State (os_environ st) (external st) (store st ++ [[]])).
Proof. reflexivity. Qed.

(** An action of a running work item keeps its list, allocates nothing and
    writes to no other list. *)
Lemma task_step_store (l : nat) (a : agent) (st : state) :
  task_trace (task_step l a st).1 = Some l
  ∧ length (store (task_step l a st).2) = length (store st)
  ∧ ∀ l', l' ≠ l -> store (task_step l a st).2 !! l' = store st !! l'.
Proof.
  destruct a as [content|e|query max_results k]; simpl.
  - rewrite nested_finish_unfold. simpl. auto.
  - auto.
  - unfold outcome_of.
    destruct (tracked_store l query (default 5%Z max_results) st) as [_ Hstore].
    destruct (internet_search_tracked l query (default 5%Z max_results) st) as [r st'].
    simpl in *. rewrite Hstore, length_alter. split; [reflexivity|]. split; [reflexivity|].
    intros l' Hne. apply list_lookup_alter_ne. congruence.
Qed.

Lemma run_preserves (P : system -> Prop) :
  (∀ ev s s', P s -> step ev s = Some s' -> P s') ->
  ∀ evs s s', P s -> run evs s = Some s' -> P s'.
Proof.
  intros Hstep evs. induction evs as [|ev evs IH]; intros s s' HP; simpl.
  - intros [= <-]. assumption.
  - destruct (step ev s) as [s1|] eqn:Hs1; [|discriminate].
    apply IH. eapply Hstep; eassumption.
Qed.

Lemma run_app (evs1 evs2 : list event) (s : system) :
  run (evs1 ++ evs2) s = match run evs1 s with Some s1 => run evs2 s1 | None => None end.
Proof.
  revert s. induction evs1 as [|ev evs1 IH]; intros s; simpl; [reflexivity|].
  destruct (step ev s); [apply IH | reflexivity].
Qed.

(** What an enabled event does, event by event. *)
Lemma step_research (query : string) (s s' : system) :
  step (ev_research query) s = Some s' ->
  s' = System (process s)
         (executors s ++ [Executor 1 [Pending query]])
         (invocations s ++ [Invocation (length (executors s)) 0 None]).
Proof. simpl. congruence. Qed.

Lemma step_start (e : nat) (s s' : system) :
  step (ev_start e) s = Some s' ->
  ∃ ex j query,
    executors s !! e = Some ex
    ∧ running_count (work_queue ex) < max_workers ex
    ∧ task_at s e j = Some (Pending query)
    ∧ s' = System (task_start query (process s)).2
             (set_task e j (task_start query (process s)).1 (executors s))
             (invocations s).
Proof.
  simpl. destruct (executors s !! e) as [ex|] eqn:He; [|discriminate].
  destruct (decide (running_count (work_queue ex) < max_workers ex)) as [Hfree|]; [|discriminate].
  destruct (next_pending (work_queue ex)) as [[j query]|] eqn:Hnext; [|discriminate].
  destruct (task_start query (process s)) as [t st'] eqn:Hstart.
  intros [= <-]. exists ex, j, query. split; [reflexivity|]. split; [assumption|].
  split; [|reflexivity].
  unfold task_at, task_in. rewrite He. apply next_pending_Some. assumption.
Qed.

Lemma step_step (e j : nat) (s s' : system) :
  step (ev_step e j) s = Some s' ->
  ∃ l a,
    task_at s e j = Some (Running l a)
    ∧ s' = System (task_step l a (process s)).2
             (set_task e j (task_step l a (process s)).1 (executors s))
             (invocations s).
Proof.
  simpl. destruct (task_at s e j) as [[query|l a|l r]|] eqn:Hj; try discriminate.
  destruct (task_step l a (process s)) as [t st'] eqn:Hstep.
  intros [= <-]. exists l, a. rewrite Hstep. split; reflexivity.
Qed.

Lemma step_return (i : nat) (s s' : system) :
  step (ev_return i) s = Some s' ->
  ∃ e j l r,
    invocations s !! i = Some (Invocation e j None)
    ∧ task_at s e j = Some (Finished l r)
    ∧ s' = System (process s) (executors s)
             (<[i := Invocation e j (Some r)]> (invocations s)).
Proof.
  simpl. destruct (invocations s !! i) as [[e j [r0|]]|]; try discriminate.
  destruct (task_at s e j) as [[query|l a|l r]|] eqn:Hj; try discriminate.
  intros [= <-]. exists e, j, l, r. split; [reflexivity|]. split; [assumption | reflexivity].
Qed.

Lemma step_pools_private (ev : event) (s s' : system) :
  pools_private s -> step ev s = Some s' -> pools_private s'.
Proof.
  intros (Hlen & Hinv & Hex & Hret) Hstep. destruct ev as [query|e|e j|i].
  - apply step_research in Hstep as ->. unfold pools_private, returned, task_at. simpl.
    split; [rewrite !length_app; simpl; lia|]. split; [|split].
    + intros i inv [[_ Hi]|[-> <-]]%lookup_snoc_Some; [eauto|]. simpl. auto.
    + intros e ex [[_ He]|[-> <-]]%lookup_snoc_Some; [eauto|]. simpl. auto.
    + intros i r Hr.
      destruct ((invocations s ++ [Invocation (length (executors s)) 0 None]) !! i)
        as [inv|] eqn:Hi; [|discriminate].
      apply lookup_snoc_Some in Hi as [[_ Hi]|[-> <-]]; [|discriminate].
      destruct (Hret i r) as [l Hl]; [unfold returned; rewrite Hi; assumption|].
      exists l. apply task_in_snoc_old. assumption.
  - apply step_start in Hstep as (ex & j & query & He & _ & Hj & ->).
    unfold pools_private, returned, task_at in *. simpl.
    split; [unfold set_task; rewrite length_alter; assumption|]. split; [assumption|]. split.
    + intros e' ex' (ex0 & He0 & -> & ->)%set_task_lookup. eauto.
    + intros i r Hr. destruct (Hret i r Hr) as [l Hl]. exists l.
      rewrite task_in_set_task. case_decide as Hij; [|assumption].
      destruct Hij as [-> ->]. congruence.
  - apply step_step in Hstep as (l & a & Hj & ->).
    unfold pools_private, returned, task_at in *. simpl.
    split; [unfold set_task; rewrite length_alter; assumption|]. split; [assumption|]. split.
    + intros e' ex' (ex0 & He0 & -> & ->)%set_task_lookup. eauto.
    + intros i r Hr. destruct (Hret i r Hr) as [l' Hl]. exists l'.
      rewrite task_in_set_task. case_decide as Hij; [|assumption].
      destruct Hij as [-> ->]. congruence.
  - apply step_return in Hstep as (e & j & l & r & Hi & Hj & ->).
    destruct (Hinv _ _ Hi) as [He Hj0]. simpl in He, Hj0. subst e j.
    unfold pools_private, returned, task_at in *. simpl.
    split; [rewrite length_insert; assumption|]. split; [|split; [assumption|]].
    + intros i' inv [(-> & <- & _)|[_ Hi']]%list_lookup_insert_Some; [simpl; auto | eauto].
    + intros i' r'. rewrite list_lookup_insert. case_decide as Hii.
      * destruct Hii as [<- _]. simpl. intros [= <-]. eauto.
      * apply Hret.
Qed.

Lemma boot_pools_private (st : state) : pools_private (boot st).
Proof.
  unfold pools_private, boot, returned, task_at, task_in. simpl.
  split; [reflexivity|]. split; [|split]; intros ? ?; rewrite ?lookup_nil; discriminate.
Qed.

(** A change that allocates nothing new for the work items keeps their
    lists separate. *)
Lemma traces_separate_transfer (base : nat) (s s' : system) :
  length (store (process s)) ≤ length (store (process s')) ->
  (∀ e j t' l, task_at s' e j = Some t' -> task_trace t' = Some l ->
     ∃ t, task_at s e j = Some t ∧ task_trace t = Some l) ->
  traces_separate base s -> traces_separate base s'.
Proof.
  intros Hlen Hold (Hbase & Hbound & Hsep). split; [lia|]. split.
  - intros e j t' l Ht' Hl. destruct (Hold _ _ _ _ Ht' Hl) as (t & Ht & Htl).
    specialize (Hbound _ _ _ _ Ht Htl). lia.
  - intros e1 j1 e2 j2 t1 t2 l H1 H2 Hl1 Hl2.
    destruct (Hold _ _ _ _ H1 Hl1) as (t1' & H1' & Hl1').
    destruct (Hold _ _ _ _ H2 Hl2) as (t2' & H2' & Hl2').
    eapply Hsep; eassumption.
Qed.

Lemma step_traces_separate (base : nat) (ev : event) (s s' : system) :
  traces_separate base s -> step ev s = Some s' -> traces_separate base s'.
Proof.
  intros Hsep Hstep. destruct ev as [query|e|e j|i].
  - apply step_research in Hstep as ->.
    apply (traces_separate_transfer base s); [reflexivity | | assumption].
    unfold task_at. simpl. intros e j t' l [Ht'|[_ Ht']]%task_in_snoc Hl; [eauto|].
    apply list_lookup_singleton_Some in Ht' as [_ <-]. discriminate.
  - apply step_start in Hstep as (ex & j & query & He & _ & Hj & ->).
    rewrite task_start_unfold. destruct Hsep as (Hbase & Hbound & Hsep).
    unfold traces_separate, task_at in *. simpl. rewrite length_app. simpl.
    split; [lia|]. split.
    + intros e' j' t' l. rewrite task_in_set_task. case_decide as Hij.
      * rewrite Hj. simpl. intros [= <-] [= <-]. lia.
      * intros Ht' Hl. specialize (Hbound _ _ _ _ Ht' Hl). lia.
    + intros e1 j1 e2 j2 t1 t2 l. rewrite !task_in_set_task.
      case_decide as H1; case_decide as H2; rewrite ?Hj; simpl.
      * intros _ _ _ _. destruct H1 as [<- <-], H2 as [<- <-]. auto.
      * intros [= <-] Ht2 [= <-] Hl2. specialize (Hbound _ _ _ _ Ht2 Hl2). lia.
      * intros Ht1 [= <-] Hl1 [= <-]. specialize (Hbound _ _ _ _ Ht1 Hl1). lia.
      * apply Hsep.
  - apply step_step in Hstep as (l & a & Hj & ->).
    destruct (task_step_store l a (process s)) as (Htrace & Hlen & _).
    apply (traces_separate_transfer base s); [simpl; lia | | assumption].
    unfold task_at in *. simpl. intros e' j' t' l'. rewrite task_in_set_task.
    case_decide as Hij; [|eauto].
    destruct Hij as [<- <-]. rewrite Hj. simpl. intros [= <-] Hl'.
    exists (Running l a). split; [reflexivity|]. simpl. congruence.
  - apply step_return in Hstep as (e & j & l & r & _ & _ & ->).
    apply (traces_separate_transfer base s); [reflexivity | | assumption].
    unfold task_at. simpl. eauto.
Qed.

Lemma boot_traces_separate (st : state) : traces_separate (length (store st)) (boot st).
Proof.
  unfold traces_separate, boot, task_at, task_in. simpl.
  split; [reflexivity|]. split; intros; congruence.
Qed.

(** C1, as amended.  In every system reached from a process with no
    invocation, each [research] invocation has a pool of capacity one of its
    own, holding exactly the one nested run it submitted: pools are not
    shared between invocations, no pool runs more than one work item, and an
    invocation has returned only what its own nested run ended with. *)
Theorem one_private_worker_per_invocation (st : state) (evs : list event) (s : system) :
  run evs (boot st) = Some s ->
  length (executors s) = length (invocations s)
  ∧ (∀ i inv, invocations s !! i = Some inv ->
       inv_executor inv = i ∧ inv_future inv = 0
       ∧ ∃ t, executors s !! i = Some (Executor 1 [t]))
  ∧ (∀ e ex, executors s !! e = Some ex -> running_count (work_queue ex) ≤ max_workers ex)
  ∧ (∀ i r, returned s i = Some r -> ∃ l, task_at s i 0 = Some (Finished l r)).
Proof.
  intros Hrun.
  assert (pools_private s) as (Hlen & Hinv & Hex & Hret).
  { eapply (run_preserves pools_private); [apply step_pools_private | | eassumption].
    apply boot_pools_private. }
  split; [assumption|]. split; [|split; [|assumption]].
  - intros i inv Hi. destruct (Hinv _ _ Hi) as [He Hj]. split; [assumption|]. split; [assumption|].
    assert (is_Some (executors s !! i)) as [ex Hexi].
    { apply lookup_lt_is_Some. rewrite Hlen. eapply lookup_lt_Some. eassumption. }
    destruct (Hex _ _ Hexi) as [Hmax Hq]. destruct ex as [m [|t [|t' q]]]; simpl in *; try discriminate.
    subst m. eauto.
  - intros e ex He. destruct (Hex _ _ He) as [-> Hq]. unfold running_count.
    rewrite <- Hq. apply length_filter.
Qed.

(** C7.  In every system reached from a process with no invocation, the
    [search_results] lists of the nested runs are pairwise distinct list
    objects and none is a list that existed before; a worker that begins a
    nested run allocates its list at a location no list had, empty; and an
    action of one nested run changes no list but its own. *)
Theorem traces_fresh_and_separate (st : state) (evs : list event) (s : system) :
  run evs (boot st) = Some s ->
  (∀ e1 j1 e2 j2 t1 t2 l,
     task_at s e1 j1 = Some t1 -> task_at s e2 j2 = Some t2 ->
     task_trace t1 = Some l -> task_trace t2 = Some l -> e1 = e2 ∧ j1 = j2)
  ∧ (∀ e j t l, task_at s e j = Some t -> task_trace t = Some l ->
       length (store st) ≤ l < length (store (process s)))
  ∧ (∀ e s', step (ev_start e) s = Some s' ->
       store (process s') = store (process s) ++ [[]]
       ∧ ∃ j query t,
           task_at s e j = Some (Pending query) ∧ task_at s' e j = Some t
           ∧ task_trace t = Some (length (store (process s))))
  ∧ (∀ e j s' t l, step (ev_step e j) s = Some s' ->
       task_at s e j = Some t -> task_trace t = Some l ->
       ∀ l', l' ≠ l -> store (process s') !! l' = store (process s) !! l').
Proof.
  intros Hrun.
  assert (traces_separate (length (store st)) s) as (_ & Hbound & Hsep).
  { eapply (run_preserves (traces_separate (length (store st))));
      [apply step_traces_separate | | eassumption].
    apply boot_traces_separate. }
  split; [assumption|]. split; [assumption|]. split.
  - intros e s' (ex & j & query & He & _ & Hj & ->)%step_start.
    rewrite task_start_unfold. simpl. split; [reflexivity|].
    exists j, query. eexists. split; [assumption|].
    unfold task_at in *. simpl. rewrite task_in_set_task, decide_True by auto.
    rewrite Hj. simpl. split; reflexivity.
  - intros e j s' t l (l0 & a & Hj & ->)%step_step Ht Hl l' Hne. simpl.
    assert (l0 = l) as -> by (rewrite Hj in Ht; injection Ht as <-; simpl in Hl; congruence).
    apply task_step_store. assumption.
Qed.

(** ** An invocation running alone is the function [research] *)

Lemma step_running (e l : nat) (a : agent) (s : system) :
  task_at s e 0 = Some (Running l a) ->
  step (ev_step e 0) s
  = Some (System (task_step l a (process s)).2
            (set_task e 0 (task_step l a (process s)).1 (executors s)) (invocations s))
  ∧ task_in (set_task e 0 (task_step l a (process s)).1 (executors s)) e 0
    = Some (task_step l a (process s)).1.
Proof.
  intros Ht. simpl. rewrite Ht.
  destruct (task_step l a (process s)) as [t st'] eqn:Hstep. simpl.
  split; [reflexivity|]. rewrite task_in_set_task, decide_True by auto.
  unfold task_at in Ht. rewrite Ht. reflexivity.
Qed.

(** The worker takes the agent's actions one after the other and ends with
    the outcome of the nested run. *)
Lemma worker_runs_agent (e l : nat) (a : agent) (s : system) :
  task_at s e 0 = Some (Running l a) ->
  ∃ n s' r,
    run (replicate n (ev_step e 0)) s = Some s'
    ∧ invocations s' = invocations s
    ∧ task_at s' e 0 = Some (Finished l r)
    ∧ match agent_invoke (internet_search_tracked l) a (process s) with
      | (Ok content, st2) => nested_finish l content st2
      | (Raise e, st2) => (Raise e, st2)
      end = (r, process s').
Proof.
  revert s. induction a as [content|e0|query max_results k IH]; intros s Ht;
    destruct (step_running e l _ s Ht) as [Hstep Hafter].
  - exists 1. eexists. exists (nested_finish l content (process s)).1.
    cbn [run replicate]. rewrite Hstep. split; [reflexivity|]. split; [reflexivity|].
    unfold task_at. cbn [executors process]. rewrite Hafter. simpl.
    destruct (nested_finish l content (process s)) as [r st']. split; reflexivity.
  - exists 1. eexists. exists (Raise e0).
    cbn [run replicate]. rewrite Hstep. split; [reflexivity|]. split; [reflexivity|].
    unfold task_at. cbn [executors]. rewrite Hafter. split; reflexivity.
  - set (s1 := System (task_step l (ToolCall query max_results k) (process s)).2
                 (set_task e 0 (task_step l (ToolCall query max_results k) (process s)).1
                    (executors s)) (invocations s)) in *.
    set (call := internet_search_tracked l query (default 5%Z max_results) (process s)).
    assert (task_step l (ToolCall query max_results k) (process s)
            = (Running l (k call.1), call.2)) as Hts.
    { simpl. unfold outcome_of. fold call. destruct call as [r1 st1]. reflexivity. }
    destruct (IH call.1 s1) as (n & s' & r & Hrun & Hinv & Hfin & Hres).
    { unfold task_at, s1. cbn [executors]. rewrite Hafter, Hts. reflexivity. }
    exists (S n), s', r. cbn [run replicate]. rewrite Hstep. fold s1.
    split; [assumption|]. split; [assumption|]. split; [assumption|].
    rewrite <- Hres. simpl agent_invoke. unfold mbind, M_bind, bind, outcome_of. fold call.
    unfold s1. cbn [process]. clear. destruct call as [r1 st1]. reflexivity.
Qed.

(** Scheduled alone, from any system, an invocation goes through the events
    of its own pool and returns what the function [research] returns, in the
    process state [research] leaves. *)
Theorem alone_agrees_with_research (query : string) (s : system) :
  ∃ n s',
    run ([ev_research query; ev_start (length (executors s))]
         ++ replicate n (ev_step (length (executors s)) 0)
         ++ [ev_return (length (invocations s))]) s = Some s'
    ∧ process s' = (research query (process s)).2
    ∧ returned s' (length (invocations s)) = Some (research query (process s)).1.
Proof.
  set (e := length (executors s)). set (i := length (invocations s)).
  set (s0 := System (process s) (executors s ++ [Executor 1 [Pending query]])
               (invocations s ++ [Invocation e 0 None])).
  set (s1 := System (task_start query (process s)).2
               (set_task e 0 (task_start query (process s)).1 (executors s0))
               (invocations s0)).
  assert (step (ev_start e) s0 = Some s1) as Hstart.
  { simpl. unfold e. rewrite list_lookup_middle by reflexivity. reflexivity. }
  assert (task_at s1 e 0 = Some (task_start query (process s)).1) as Hrunning.
  { unfold task_at, s1. cbn [executors]. rewrite task_in_set_task, decide_True by auto.
    unfold task_in, s0, e. cbn [executors]. rewrite list_lookup_middle by reflexivity.
    reflexivity. }
  rewrite task_start_unfold in Hrunning. simpl in Hrunning.
  destruct (worker_runs_agent _ _ _ _ Hrunning) as (n & s' & r & Hrun & Hinv & Hfin & Hres).
  assert (invocations s' !! i = Some (Invocation e 0 None)) as Hi.
  { rewrite Hinv. unfold s1, s0, i. simpl. apply list_lookup_middle. reflexivity. }
  exists n. eexists.
  change ([ev_research query; ev_start e] ++ replicate n (ev_step e 0) ++ [ev_return i])
    with (ev_research query :: ev_start e :: (replicate n (ev_step e 0) ++ [ev_return i])).
  cbn [run]. change (step (ev_research query) s) with (Some s0). cbv beta iota.
  rewrite Hstart, run_app, Hrun. simpl. rewrite Hi.
  unfold task_at in Hfin. fold (task_at s' e 0). unfold task_at. rewrite Hfin.
  split; [reflexivity|]. unfold returned. simpl.
  rewrite list_lookup_insert_eq by (eapply lookup_lt_Some; eassumption). simpl.
  rewrite research_unfold, nested_start_unfold.
  unfold s1 in Hres. cbn [process] in Hres. rewrite task_start_unfold in Hres.
  cbn [fst snd] in Hres. rewrite Hres. split; reflexivity.
Qed.

End OverlapProofs.

(** ** The allow-list *)

(** C8.  The observer filter forwards only actions of the stream whose name
    is on the allow-list, and the allow-list configured in [main.py] is
    exactly the five names [research], [write_todos], [write_file],
    [read_file] and [edit_file]; the nested agent's [internet_search] is not
    among them. *)
Theorem observer_forwards_allow_list_only :
  (∀ stream a, a ∈ observer_filter emit_tool_calls stream ->
     action_name a ∈ emit_tool_calls ∧ a ∈ stream)
  ∧ (∀ name, name ∈ emit_tool_calls <->
       name = "research" ∨ name = "write_todos" ∨ name = "write_file"
       ∨ name = "read_file" ∨ name = "edit_file")
  ∧ length emit_tool_calls = 5
  ∧ "internet_search" ∉ emit_tool_calls.
Proof.
  split; [|split; [|split]].
  - intros stream a Ha. unfold observer_filter in Ha.
    apply list_elem_of_filter in Ha. assumption.
  - intros name. unfold emit_tool_calls.
    rewrite !elem_of_cons, elem_of_nil. tauto.
  - reflexivity.
  - unfold emit_tool_calls. rewrite !elem_of_cons, elem_of_nil.
    intros [H|[H|[H|[H|[H|[]]]]]]; inversion H.
Qed.

(** ** The store around a call, and calls whose searches all fail *)

Section FrameProofs.
Context {X : Externals}.

(** A failure sentinel never passes the sources filter. *)
Lemma error_record_not_source (e : exn) : is_source (error_record e) = false.
Proof.
  unfold is_source, dict_contains. rewrite error_record_no_url.
  rewrite bool_decide_eq_false_2; [reflexivity|]. intros [v Hv]. discriminate.
Qed.

Lemma filter_sentinels (rs : list dict) :
  Forall (fun r => ∃ e, r = error_record e) rs ->
  filter (fun r => is_source r = true) rs = [].
Proof.
  induction 1 as [|r rs [e ->] _ IH]; [reflexivity|].
  rewrite filter_cons_False; [assumption|].
  rewrite error_record_not_source. discriminate.
Qed.

(** Whatever a call of [research] does, returning or raising, it leaves the
    environment and every list that existed before as they were, and the
    store has exactly one list more: the next call gets a new one. *)
Theorem research_leaves_other_lists (query : string) (st : state) :
  os_environ (research query st).2 = os_environ st
  ∧ length (store (research query st).2) = S (length (store st))
  ∧ ∀ l, l < length (store st) -> store (research query st).2 !! l = store st !! l.
Proof.
  rewrite research_unfold, nested_start_unfold.
  set (a := create_deep_agent_invoke _ _ _ _).
  set (st1 := State _ _ _).
  destruct (agent_invoke_store (length (store st)) a st1) as (Henv & added & Hstore & _).
  assert (os_environ (agent_invoke (internet_search_tracked (length (store st))) a st1).2
          = os_environ st
          ∧ length (store (agent_invoke (internet_search_tracked (length (store st))) a st1).2)
            = S (length (store st))
          ∧ ∀ l, l < length (store st) ->
              store (agent_invoke (internet_search_tracked (length (store st))) a st1).2 !! l
              = store st !! l) as Hframe.
  { rewrite Henv, Hstore. subst st1. simpl. rewrite length_alter, length_app. simpl.
    split; [reflexivity|]. split; [lia|]. intros l Hl.
    rewrite list_lookup_alter_ne by lia. apply lookup_app_l. assumption. }
  destruct (agent_invoke _ a st1) as [[content|e] st2]; simpl in *; [|assumption].
  rewrite nested_finish_unfold. assumption.
Qed.

(** A call that returns after capturing nothing but failure sentinels
    returns an empty [sources] list. *)
Theorem failed_searches_give_no_sources (query : string) (st : state)
    (out : research_outcome) (st' : state) (captured : list dict) :
  research query st = (Ok out, st') ->
  store st' !! length (store st) = Some captured ->
  Forall (fun r => ∃ e, r = error_record e) captured ->
  sources out = [].
Proof.
  intros (captured' & Hl & _ & Hsrcs)%research_returns Hl' Hsentinels.
  assert (captured' = captured) as -> by congruence.
  unfold format_sources in Hsrcs. rewrite filter_sentinels in Hsrcs by assumption.
  simpl in Hsrcs. congruence.
Qed.

End FrameProofs.

(** ** Runs with the demo provider and agent *)

(** C1, as stated, fails.  The second invocation is issued while the first
    is in flight; both nested runs are running at the same moment, each on
    the worker of its own pool, and the second returns while the first has
    not. *)
Lemma second_call_overtakes_first :
  run Demo.both_started (boot Demo.st0) = Some Demo.s_both_started
  ∧ is_running <$> task_at Demo.s_both_started 0 0 = Some true
  ∧ is_running <$> task_at Demo.s_both_started 1 0 = Some true
  ∧ run Demo.second_overtakes (boot Demo.st0) = Some Demo.s_second_returned
  ∧ returned Demo.s_second_returned 0 = None
  ∧ returned Demo.s_second_returned 1 = Some (Ok Demo.out_second).
Proof.
  split; [reflexivity|].
  split; [reflexivity|]. split; [reflexivity|].
  split; [reflexivity|].
  split; reflexivity.
Qed.

(** C1, as amended, on the run in which the second invocation overtakes
    the first: both have a pool of capacity one of their own. *)
Lemma one_private_worker_demo :
  run Demo.second_overtakes (boot Demo.st0) = Some Demo.s_second_returned
  ∧ ∀ i inv, invocations Demo.s_second_returned !! i = Some inv ->
      inv_executor inv = i ∧ inv_future inv = 0
      ∧ ∃ t, executors Demo.s_second_returned !! i = Some (Executor 1 [t]).
Proof.
  assert (run Demo.second_overtakes (boot Demo.st0) = Some Demo.s_second_returned) as Hrun
    by reflexivity.
  split; [exact Hrun|].
  apply (one_private_worker_per_invocation Demo.st0 Demo.second_overtakes _ Hrun).
Defined.

(** C2, as stated, fails.  The agent raises [ValueError("boom")]; the call
    raises that exception itself, whose class is not [ResearchFailed]. *)
Lemma raw_fault_escapes_research :
  (research "boom" Demo.st0).1 = Raise (Exn "ValueError" "boom")
  ∧ exn_class (Exn "ValueError" "boom") ≠ "ResearchFailed".
Proof. split; [reflexivity | string_ne]. Qed.

(** C2, as amended, on a process without [TAVILY_API_KEY]: the query client
    raises inside the tool call, the agent gives up with that exception, and
    [research] raises it unchanged. *)
Lemma nested_fault_demo :
  research "topic" Demo.st_nokey
  = (Raise (RuntimeError "TAVILY_API_KEY not set"),
     @State Demo.demo {[ "OPENAI_API_KEY" := "sk-demo" ]} 0 [[]]).
Proof.
  apply (nested_fault_reaches_caller_unchanged "topic" Demo.st_nokey 0
           (Demo.agent_of "topic")
           (@State Demo.demo {[ "OPENAI_API_KEY" := "sk-demo" ]} 0 [[]]));
    reflexivity.
Defined.

(** C3, as stated, fails.  Without [TAVILY_API_KEY] the query client raises
    [RuntimeError] to its caller. *)
Lemma search_raises_without_key :
  (_do_internet_search "topic" 5 Demo.st_nokey).1
  = Raise (RuntimeError "TAVILY_API_KEY not set").
Proof. reflexivity. Qed.

(** C4 on a run in which the first search fails and the second finds two
    hits: the sentinel and the two hits are captured, the call returns, the
    sentinel is dropped and the two hits are the sources, in order, each with
    a [url] key and no [error] key. *)
Lemma sources_valid_demo :
  research "mixed" Demo.st0 = (Ok Demo.out_mixed, Demo.st_mixed)
  ∧ store Demo.st_mixed !! 1 = Some Demo.captured_mixed
  ∧ filter (fun r => is_source r = true) Demo.captured_mixed
    = [format_result Demo.hit_a; format_result Demo.hit_b]
  ∧ sources Demo.out_mixed = [Demo.source_a; Demo.source_b]
  ∧ ∀ s, s ∈ sources Demo.out_mixed -> is_Some (s !! "url") ∧ s !! "error" = None.
Proof.
  destruct (sources_valid_in_capture_order "mixed" Demo.st0 1 (Demo.agent_of "mixed")
              (@State Demo.demo Demo.environ 0 [[Demo.hit_c]; []]) eq_refl)
    as [Hreturns Hsources].
  destruct (Hreturns "findings on mixed" Demo.st_mixed eq_refl) as (out & Hrun & _).
  assert (research "mixed" Demo.st0 = (Ok Demo.out_mixed, Demo.st_mixed)) as Hrun'
    by reflexivity.
  split; [exact Hrun'|]. split; [reflexivity|]. split; [reflexivity|].
  split; [reflexivity|].
  destruct (Hsources _ _ Hrun') as (captured & kept & _ & _ & _ & _ & _ & _ & Hs).
  exact Hs.
Defined.

(** C5.  Called with [max_results=1], the query client hands the limit to
    the provider and returns one record for every hit of the answer: the
    provider sends three hits, and three records come back, where the
    docstring promises at most one.  Nothing between the provider call and
    the [return] cuts the list. *)
Lemma search_returns_more_than_limit :
  (_do_internet_search "greedy" 1 Demo.st0).1 = Ok Demo.captured_topic
  ∧ length Demo.captured_topic = 3
  ∧ (Demo.search_strings "greedy" 1 Demo.st0).1
    = Ok (json_of_record <$> Demo.captured_topic).
Proof. split; [reflexivity|]. split; reflexivity. Qed.

(** The 3005 characters of a hit's content are cut to 3000. *)
Example long_content_is_cut :
  match (_do_internet_search "long" 5 Demo.st0).1 with
  | Ok rs => (fun r => String.length <$> r !! "content") <$> rs
  | Raise _ => []
  end = [Some 3000].
Proof. reflexivity. Qed.

(** C7 on the run in which the second invocation overtakes the first: the
    two nested runs have their lists at locations 1 and 2, after the one
    list the process already had. *)
Lemma traces_separate_demo :
  run Demo.second_overtakes (boot Demo.st0) = Some Demo.s_second_returned
  ∧ task_trace <$> task_at Demo.s_second_returned 0 0 = Some (Some 1)
  ∧ task_trace <$> task_at Demo.s_second_returned 1 0 = Some (Some 2)
  ∧ ∀ e j t l, task_at Demo.s_second_returned e j = Some t -> task_trace t = Some l ->
      length (store Demo.st0) ≤ l < length (store (process Demo.s_second_returned)).
Proof.
  assert (run Demo.second_overtakes (boot Demo.st0) = Some Demo.s_second_returned) as Hrun
    by reflexivity.
  split; [exact Hrun|]. split; [reflexivity|]. split; [reflexivity|].
  apply (traces_fresh_and_separate Demo.st0 Demo.second_overtakes _ Hrun).
Defined.


(** A call whose only search fails: the sentinel is captured, the call
    returns, and its sources are empty. *)
Lemma failed_search_demo :
  research "fail" Demo.st0 = (Ok Demo.out_fail, Demo.st_fail)
  ∧ sources Demo.out_fail = [].
Proof.
  assert (research "fail" Demo.st0 = (Ok Demo.out_fail, Demo.st_fail)) as Hrun by reflexivity.
  split; [exact Hrun|].
  apply (failed_searches_give_no_sources "fail" Demo.st0 _ _
           [error_record (Exn "ConnectionError" "network down")] Hrun);
    [reflexivity | repeat constructor; eauto].
Defined.

(** * Further properties of the tools *)

(** ** What the query client does to a hit *)

Lemma slice_to_prefix (n : nat) (s : string) : ∃ rest, s = slice_to n s +:+ rest.
Proof.
  revert s. induction n as [|n IH]; intros s.
  - exists s. destruct s; reflexivity.
  - destruct s as [|c s]; [exists ""; reflexivity|].
    destruct (IH s) as [rest Hrest]. exists rest.
    change (String c s = String c (slice_to n s +:+ rest)). congruence.
Qed.

Lemma py_or_default (v : option string) : py_or v "" = default "" v.
Proof. destruct v as [[|c s]|]; reflexivity. Qed.

Section FormatProofs.
Context {X : Externals}.

(** A formatted hit always passes the sources filter, and its source record
    is the formatted hit with [status] added: cutting the content a second
    time changes nothing. *)
Lemma formatted_hit_becomes_source (hit : dict) :
  is_source (format_result hit) = true
  ∧ source_record (format_result hit) = Ok (<[ "status" := "found" ]> (format_result hit)).
Proof.
  assert (is_source (format_result hit) = true) as Hsrc.
  { apply is_source_spec. rewrite format_result_url, format_result_no_error.
    split; [eauto | reflexivity]. }
  split; [assumption|].
  destruct (source_record_ok _ Hsrc) as (url & Hurl & ->). f_equal.
  rewrite format_result_url in Hurl. injection Hurl as <-.
  assert (dict_get (format_result hit) "title" "" = dict_get hit "title" "") as ->.
  { unfold dict_get at 1. rewrite format_result_title. reflexivity. }
  assert (slice_to 3000 (dict_get (format_result hit) "content" "")
          = slice_to 3000 (py_or (hit !! "content") "")) as ->.
  { unfold dict_get. rewrite format_result_content.
    exact (slice_to_short 3000 _ (slice_to_length 3000 _)). }
  apply map_eq. intros k. unfold format_result.
  destruct (decide (k = "status")) as [->|Hs].
  { rewrite lookup_insert_eq. do 3 (rewrite lookup_insert_ne by string_ne).
    rewrite lookup_singleton_eq. reflexivity. }
  rewrite (lookup_insert_ne _ "status") by congruence.
  destruct (decide (k = "url")) as [->|Hu]; [rewrite !lookup_insert_eq; reflexivity|].
  rewrite !(lookup_insert_ne _ "url") by congruence.
  destruct (decide (k = "title")) as [->|Ht]; [rewrite !lookup_insert_eq; reflexivity|].
  rewrite !(lookup_insert_ne _ "title") by congruence.
  destruct (decide (k = "content")) as [->|Hc].
  { rewrite lookup_insert_eq, lookup_singleton_eq. reflexivity. }
  rewrite lookup_insert_ne by congruence.
  rewrite !lookup_singleton_ne by congruence. reflexivity.
Qed.

Lemma sources_of_captured (captured srcs : list dict) :
  Forall (fun r => (∃ hit, r = format_result hit) ∨ (∃ e, r = error_record e)) captured ->
  format_sources captured = Ok srcs ->
  srcs = (fun r => <[ "status" := "found" ]> r)
           <$> filter (fun r => r !! "error" = None) captured.
Proof.
  unfold format_sources. intros Hshape. revert srcs.
  induction Hshape as [|r captured [[hit ->]|[e ->]] _ IH]; intros srcs; simpl.
  - intros [= <-]. reflexivity.
  - destruct (formatted_hit_becomes_source hit) as [Hsrc Hrec].
    rewrite filter_cons_True by assumption.
    rewrite (filter_cons_True (fun r => r !! "error" = None))
      by apply format_result_no_error.
    simpl. rewrite Hrec.
    destruct (comprehension source_record _) as [ss|e] eqn:Hss; [|discriminate].
    intros [= <-]. rewrite (IH ss eq_refl). reflexivity.
  - rewrite filter_cons_False by (rewrite error_record_not_source; discriminate).
    rewrite (filter_cons_False (fun r => r !! "error" = None)).
    + apply IH.
    + unfold error_record. rewrite lookup_singleton_eq. discriminate.
Qed.

(** The sources of a returned outcome are exactly the captured records that
    are not failure sentinels, in capture order, each with [status] set to
    ["found"] and otherwise unchanged: the filter drops sentinels and nothing
    else, and the second cut of [content] changes nothing. *)
Theorem sources_are_captured_hits_with_status (query : string) (st : state)
    (out : research_outcome) (st' : state) :
  research query st = (Ok out, st') ->
  ∃ captured,
    store st' !! length (store st) = Some captured
    ∧ sources out
      = (fun r => <[ "status" := "found" ]> r)
          <$> filter (fun r => r !! "error" = None) captured.
Proof.
  intros (captured & Hl & Hshape & Hsrcs)%research_returns.
  exists captured. split; [assumption|]. apply sources_of_captured; assumption.
Qed.

End FormatProofs.

(** ** The captured list is what the agent was shown *)

Section ReceivedProofs.
Context {X : Externals}.

Lemma agent_invoke_received (l : nat) (a : agent) (st : state) :
  store (agent_invoke (internet_search_tracked l) a st).2
  = alter (fun old => old ++ concat (agent_received (internet_search_tracked l) a st)) l
      (store st).
Proof.
  revert st. induction a as [content|e|query max_results k IH]; intros st; simpl.
  - rewrite alter_extend_nil. reflexivity.
  - rewrite alter_extend_nil. reflexivity.
  - unfold mbind, M_bind, bind, outcome_of.
    pose proof (tracked_store l query (default 5%Z max_results) st) as [_ Hstore].
    destruct (internet_search_tracked l query (default 5%Z max_results) st) as [r st1].
    simpl in *. rewrite IH, Hstore, alter_extend_extend.
    destruct r as [rs|e]; reflexivity.
Qed.

(** Whether the call returns or raises, the list allocated for it ends up
    holding exactly the result lists the tool handed to the agent, one after
    the other in call order: nothing else is ever harvested. *)
Theorem captured_is_what_agent_received (query : string) (st : state)
    (l : nat) (a : agent) (st1 : state) :
  nested_start query st = (Ok (l, a), st1) ->
  store (research query st).2 !! l
  = Some (concat (agent_received (internet_search_tracked l) a st1)).
Proof.
  intros Hstart. rewrite research_unfold, Hstart.
  rewrite nested_start_unfold in Hstart. injection Hstart as <- <- <-.
  set (l := length (store st)). set (a := create_deep_agent_invoke _ _ _ _).
  set (st1 := State _ _ _).
  pose proof (agent_invoke_received l a st1) as Hstore.
  assert (store (agent_invoke (internet_search_tracked l) a st1).2 !! l
          = Some (concat (agent_received (internet_search_tracked l) a st1))) as Hl.
  { rewrite Hstore, list_lookup_alter_eq. subst st1 l. simpl.
    rewrite list_lookup_middle by reflexivity. reflexivity. }
  destruct (agent_invoke _ a st1) as [[content|e] st2]; simpl in *; [|assumption].
  rewrite nested_finish_unfold. assumption.
Qed.

(** Without the key every tool call raises before the provider is reached
    and leaves the process as it was. *)
Lemma agent_invoke_without_key (l : nat) (a : agent) (st : state) :
  truthy (os_environ st !! "TAVILY_API_KEY") = false ->
  (agent_invoke (internet_search_tracked l) a st).2 = st.
Proof.
  intros Hkey. induction a as [content|e|query max_results k IH]; simpl; try reflexivity.
  unfold mbind, M_bind, bind, outcome_of.
  rewrite tracked_unfold, do_search_key_missing by assumption. apply IH.
Qed.

(** With [TAVILY_API_KEY] unset or empty, a call of [research] makes no
    provider call and captures nothing, whatever the agent does; if the
    agent still ends with a message, the outcome has no sources. *)
Theorem research_without_key_reaches_no_provider (query : string) (st : state) :
  truthy (os_environ st !! "TAVILY_API_KEY") = false ->
  external (research query st).2 = external st
  ∧ store (research query st).2 = store st ++ [[]]
  ∧ ∀ out st', research query st = (Ok out, st') -> sources out = [].
Proof.
  intros Hkey.
  assert ((research query st).2 = State (os_environ st) (external st) (store st ++ [[]])) as Hst.
  { rewrite research_unfold, nested_start_unfold.
    pose proof (agent_invoke_without_key (length (store st))
                  (create_deep_agent_invoke (default "gpt-5.2" (os_environ st !! "OPENAI_MODEL"))
                     (os_environ st !! "OPENAI_API_KEY") query (external st))
                  (State (os_environ st) (external st) (store st ++ [[]])) Hkey) as Hsame.
    destruct (agent_invoke _ _ _) as [[content|e] st2]; simpl in *; [|assumption].
    rewrite nested_finish_unfold. assumption. }
  rewrite Hst. split; [reflexivity|]. split; [reflexivity|].
  intros out st' Hrun. pose proof Hrun as (captured & Hl & _ & Hsrcs)%research_returns.
  rewrite Hrun in Hst. simpl in Hst. subst st'. simpl in Hl.
  rewrite list_lookup_middle in Hl by reflexivity. injection Hl as <-.
  unfold format_sources in Hsrcs. simpl in Hsrcs. congruence.
Qed.

End ReceivedProofs.

(** ** The coordinator's guards *)

Section CoordinatorProofs.
Context {X : Externals} {F : Framework}.

(** [build_agent] checks [OPENAI_API_KEY] first and [TAVILY_API_KEY]
    second; an unset key and an empty one are both missing.  It raises
    [RuntimeError] naming the first missing key, before anything is built,
    and it returns only when both keys are set; it never changes the
    process. *)
Theorem build_agent_guards (st : state) :
  (truthy (os_environ st !! "OPENAI_API_KEY") = false ->
     build_agent st
     = (Raise (RuntimeError "Missing OPENAI_API_KEY environment variable"), st))
  ∧ (truthy (os_environ st !! "OPENAI_API_KEY") = true ->
     truthy (os_environ st !! "TAVILY_API_KEY") = false ->
     build_agent st
     = (Raise (RuntimeError "Missing TAVILY_API_KEY environment variable"), st))
  ∧ (∀ g st', build_agent st = (Ok g, st') ->
       truthy (os_environ st !! "OPENAI_API_KEY") = true
       ∧ truthy (os_environ st !! "TAVILY_API_KEY") = true
       ∧ st' = st)
  ∧ (build_agent st).2 = st.
Proof.
  unfold build_agent, mbind, M_bind, bind, os_environ_get, raise, lift, mret, M_ret, ret.
  destruct (truthy (os_environ st !! "OPENAI_API_KEY")) eqn:Hopenai; simpl.
  - destruct (truthy (os_environ st !! "TAVILY_API_KEY")) eqn:Htavily; simpl.
    + destruct (create_main_agent _ _ _) as [g0|e]; simpl.
      * split; [discriminate|]. split; [discriminate|]. split; [|reflexivity].
        intros g st' [= <- <-]. auto.
      * split; [discriminate|]. split; [discriminate|]. split; [|reflexivity].
        intros g st' [=].
    + split; [discriminate|]. split; [reflexivity|]. split; [|reflexivity].
      intros g st' [=].
  - split; [reflexivity|]. split; [discriminate|]. split; [|reflexivity].
    intros g st' [=].
Qed.

Lemma build_agent_needs_tavily_key (st : state) (g : graph) (st' : state) :
  build_agent st = (Ok g, st') -> truthy (os_environ st !! "TAVILY_API_KEY") = true.
Proof.
  unfold build_agent, mbind, M_bind, bind, os_environ_get, raise.
  destruct (truthy (os_environ st !! "OPENAI_API_KEY")); simpl; [|discriminate].
  destruct (truthy (os_environ st !! "TAVILY_API_KEY")); simpl; [reflexivity | discriminate].
Qed.

(** Once [build_agent] has returned, the query client's own guard cannot
    fire in that environment: every search returns normally, so no tool call
    of a nested agent raises. *)
Theorem built_agent_can_search (st : state) (g : graph) (st' : state) :
  build_agent st = (Ok g, st') ->
  ∀ query max_results st2, os_environ st2 = os_environ st ->
    ∃ rs, (_do_internet_search query max_results st2).1 = Ok rs.
Proof.
  intros Htavily%build_agent_needs_tavily_key query max_results st2 Henv.
  destruct (os_environ st !! "TAVILY_API_KEY") as [key|] eqn:Hkey; [|discriminate].
  apply truthy_Some in Htavily.
  rewrite (do_search_with_key query max_results st2 key) by (rewrite ?Henv; assumption).
  destruct (TavilyClient_search key query max_results (external st2)) as [[response|e] w];
    eexists; reflexivity.
Qed.

End CoordinatorProofs.

(** ** Invocations do not wait for one another *)

Section ProgressProofs.
Context {X : Externals}.

Lemma return_enabled (s : system) (i l : nat) (r : result research_outcome) :
  invocations s !! i = Some (Invocation i 0 None) ->
  task_at s i 0 = Some (Finished l r) ->
  ∃ s', step (ev_return i) s = Some s' ∧ returned s' i = Some r.
Proof.
  intros Hi Ht. cbn [step]. rewrite Hi, Ht. eexists. split; [reflexivity|].
  unfold returned. cbn [invocations].
  rewrite list_lookup_insert_eq by (eapply lookup_lt_Some; eassumption). reflexivity.
Qed.

Lemma running_can_return (s : system) (i l : nat) (a : agent) :
  invocations s !! i = Some (Invocation i 0 None) ->
  task_at s i 0 = Some (Running l a) ->
  ∃ n s', run (replicate n (ev_step i 0) ++ [ev_return i]) s = Some s'
          ∧ is_Some (returned s' i).
Proof.
  intros Hi Ht.
  destruct (worker_runs_agent _ _ _ _ Ht) as (n & s1 & r & Hrun & Hinv & Hfin & _).
  destruct (return_enabled s1 i l r) as (s' & Hstep & Hr); [congruence | assumption |].
  exists n, s'. rewrite run_app, Hrun. cbn [run]. rewrite Hstep. eauto.
Qed.

Lemma own_events_replicate (i n : nat) (rest : list event) :
  Forall (fun ev => ev = ev_start i ∨ ev = ev_step i 0 ∨ ev = ev_return i) rest ->
  Forall (fun ev => ev = ev_start i ∨ ev = ev_step i 0 ∨ ev = ev_return i)
    (replicate n (ev_step i 0) ++ rest).
Proof.
  intros Hrest. apply Forall_app. split; [|assumption].
  apply Forall_replicate. auto.
Qed.

(** In every system reached from a process with no invocation, each
    invocation that has been issued can be brought to its return by events of
    its own pool alone, wherever the other invocations stand: no invocation
    waits for another. *)
Theorem invocation_can_always_return (st : state) (evs : list event) (s : system)
    (i : nat) (inv : invocation) :
  run evs (boot st) = Some s ->
  invocations s !! i = Some inv ->
  ∃ evs' s',
    run evs' s = Some s'
    ∧ is_Some (returned s' i)
    ∧ Forall (fun ev => ev = ev_start i ∨ ev = ev_step i 0 ∨ ev = ev_return i) evs'.
Proof.
  intros Hrun Hi.
  assert (pools_private s) as (Hlen & Hinv & Hex & _).
  { eapply (run_preserves pools_private); [apply step_pools_private | | eassumption].
    apply boot_pools_private. }
  destruct (Hinv _ _ Hi) as [He Hj]. destruct inv as [e j [r|]]; simpl in He, Hj; subst e j.
  { exists [], s. split; [reflexivity|]. split; [|constructor].
    unfold returned. rewrite Hi. simpl. eauto. }
  assert (is_Some (executors s !! i)) as [ex Hexi].
  { apply lookup_lt_is_Some. rewrite Hlen. eapply lookup_lt_Some. eassumption. }
  destruct (Hex _ _ Hexi) as [Hmax Hq].
  destruct ex as [m [|t [|t' q]]]; simpl in Hmax, Hq; try discriminate. subst m.
  assert (task_at s i 0 = Some t) as Ht.
  { unfold task_at, task_in. rewrite Hexi. reflexivity. }
  destruct t as [query|l a|l r].
  - set (s1 := System (task_start query (process s)).2
                 (set_task i 0 (task_start query (process s)).1 (executors s))
                 (invocations s)).
    assert (step (ev_start i) s = Some s1) as Hstart.
    { cbn [step]. rewrite Hexi. reflexivity. }
    destruct (running_can_return s1 i (length (store (process s)))
                (create_deep_agent_invoke
                   (default "gpt-5.2" (os_environ (process s) !! "OPENAI_MODEL"))
                   (os_environ (process s) !! "OPENAI_API_KEY") query (external (process s))))
      as (n & s' & Hrun' & Hr).
    { assumption. }
    { unfold task_at, s1. cbn [executors]. rewrite task_in_set_task, decide_True by auto.
      fold (task_at s i 0). rewrite Ht, task_start_unfold. reflexivity. }
    exists (ev_start i :: replicate n (ev_step i 0) ++ [ev_return i]), s'.
    cbn [run]. rewrite Hstart. split; [assumption|]. split; [assumption|].
    constructor; [auto|]. apply own_events_replicate. constructor; [auto | constructor].
  - destruct (running_can_return s i l a Hi Ht) as (n & s' & Hrun' & Hr).
    exists (replicate n (ev_step i 0) ++ [ev_return i]), s'.
    split; [assumption|]. split; [assumption|].
    apply own_events_replicate. constructor; [auto | constructor].
  - destruct (return_enabled s i l r Hi Ht) as (s' & Hstep & Hr).
    exists [ev_return i], s'. cbn [run]. rewrite Hstep.
    split; [reflexivity|]. split; [eauto|]. constructor; [auto | constructor].
Qed.

End ProgressProofs.

(** ** Further runs with the demo provider and agent *)

(** The call [research "topic"] made one tool call, which handed the agent
    the three formatted hits; they are what its list holds. *)
Lemma captured_is_received_demo :
  store (research "topic" Demo.st0).2 !! 1
  = Some (concat (agent_received (internet_search_tracked 1) (Demo.agent_of "topic")
                    (@State Demo.demo Demo.environ 0 [[Demo.hit_c]; []])))
  ∧ concat (agent_received (internet_search_tracked 1) (Demo.agent_of "topic")
              (@State Demo.demo Demo.environ 0 [[Demo.hit_c]; []]))
    = Demo.captured_topic.
Proof.
  split; [|reflexivity].
  apply (captured_is_what_agent_received "topic" Demo.st0 1 (Demo.agent_of "topic")).
  reflexivity.
Defined.

(** Without the Tavily key the call leaves the provider's call counter at
    0 and its list empty. *)
Lemma research_without_key_demo :
  external (research "topic" Demo.st_nokey).2 = 0
  ∧ store (research "topic" Demo.st_nokey).2 = [[]].
Proof.
  destruct (research_without_key_reaches_no_provider "topic" Demo.st_nokey)
    as (Hworld & Hstore & _); [reflexivity|].
  split; [exact Hworld | exact Hstore].
Defined.

(** [build_agent] with both keys set, with an empty [OPENAI_API_KEY], and
    without [TAVILY_API_KEY]. *)
Example build_agent_demo :
  build_agent Demo.st0 = (Ok Demo.graph_built, Demo.st0)
  ∧ (@build_agent Demo.demo Demo.demo_framework Demo.st_emptykey).1
    = Raise (RuntimeError "Missing OPENAI_API_KEY environment variable")
  ∧ (@build_agent Demo.demo Demo.demo_framework Demo.st_nokey).1
    = Raise (RuntimeError "Missing TAVILY_API_KEY environment variable").
Proof. split; [reflexivity|]. split; reflexivity. Qed.

(** After [build_agent] has returned in [st0], a search in [st0] returns. *)
Lemma built_agent_can_search_demo :
  ∃ rs, (_do_internet_search "topic" 5 Demo.st0).1 = Ok rs.
Proof.
  apply (built_agent_can_search Demo.st0 Demo.graph_built Demo.st0);
    reflexivity.
Defined.

(** The first invocation, overtaken by the second, can still return by
    events of its own pool. *)
Lemma invocation_can_return_demo :
  ∃ evs' s',
    run evs' Demo.s_second_returned = Some s'
    ∧ is_Some (returned s' 0)
    ∧ Forall (fun ev => ev = ev_start 0 ∨ ev = ev_step 0 0 ∨ ev = ev_return 0) evs'.
Proof.
  apply (invocation_can_always_return Demo.st0 Demo.second_overtakes
           Demo.s_second_returned 0 (Invocation 0 0 None));
    reflexivity.
Defined.

(** The three captured hits of [research "topic"] are its three sources,
    each with its status. *)
Lemma sources_are_captured_demo :
  research "topic" Demo.st0 = (Ok Demo.out_topic, Demo.st_topic)
  ∧ sources Demo.out_topic
    = (fun r => <[ "status" := "found" ]> r) <$> Demo.captured_topic.
Proof.
  assert (research "topic" Demo.st0 = (Ok Demo.out_topic, Demo.st_topic)) as Hrun
    by reflexivity.
  split; [exact Hrun|].
  destruct (sources_are_captured_hits_with_status "topic" Demo.st0 _ _ Hrun)
    as (captured & Hl & ->).
  simpl in Hl. injection Hl as <-. reflexivity.
Defined.

(** * The query client on JSON answers *)

Section JsonProofs.
Context {X : Externals} {I : Interpreter} {C : JsonClient}.

Lemma json_format_result_spec (r : json) (fr : Json.record) :
  Json.format_result r = Ok fr <->
  ∃ m cut,
    r = JDict m
    ∧ Json.py_slice_to 3000 (Json.py_or (default JNull (m !! "content")) (JStr "")) = Ok cut
    ∧ fr = {[ "url" := default (JStr "") (m !! "url");
              "title" := default (JStr "") (m !! "title");
              "content" := cut ]}.
Proof.
  unfold Json.format_result. split.
  - destruct r as [| | | | |l|m]; simpl; try discriminate.
    destruct (Json.py_slice_to 3000 _) as [cut|e] eqn:Hcut; [|discriminate].
    intros [= <-]. exists m, cut. auto.
  - intros (m & cut & -> & Hcut & ->). simpl. rewrite Hcut. reflexivity.
Qed.

Lemma json_formattable_spec (r : json) :
  Json.formattable r <-> ∃ fr, Json.format_result r = Ok fr.
Proof.
  split.
  - intros (m & -> & Hcontent).
    assert (∃ cut, Json.py_slice_to 3000
                     (Json.py_or (default JNull (m !! "content")) (JStr "")) = Ok cut)
      as [cut Hcut].
    { unfold Json.py_or. destruct Hcontent as [Hfalsy|[[s Hs]|[l Hl]]].
      - rewrite Hfalsy. eexists. reflexivity.
      - rewrite Hs. cbn [default from_option id].
        destruct (Json.py_truthy (JStr s)); eexists; reflexivity.
      - rewrite Hl. cbn [default from_option id].
        destruct (Json.py_truthy (JList l)); eexists; reflexivity. }
    eexists. apply json_format_result_spec. exists m, cut. auto.
  - intros [fr (m & cut & -> & Hcut & _)%json_format_result_spec].
    exists m. split; [reflexivity|]. unfold Json.py_or in Hcut.
    destruct (Json.py_truthy (default JNull (m !! "content"))) eqn:Htruthy; [|auto].
    right. destruct (m !! "content") as [[| | | |s|l|d]|]; simpl in *;
      try discriminate; eauto.
Qed.

Lemma json_format_results_spec (items : list json) (rs : list Json.record) :
  Json.format_results items = Ok rs <->
  Forall2 (fun r fr => Json.format_result r = Ok fr) items rs.
Proof.
  revert rs. induction items as [|r items IH]; intros rs; simpl.
  - split; [intros [= <-]; constructor | intros Hrel; inversion Hrel; reflexivity].
  - destruct (Json.format_result r) as [fr|e] eqn:Hr.
    + destruct (Json.format_results items) as [rest|e] eqn:Hrest.
      * split.
        -- intros [= <-]. constructor; [exact Hr | apply IH; reflexivity].
        -- intros Hrel. inversion Hrel as [|? fr' ? rest' Hfr Hrest']; subst.
           apply IH in Hrest'. congruence.
      * split; [discriminate|].
        intros Hrel. inversion Hrel as [|? fr' ? rest' Hfr Hrest']; subst.
        apply IH in Hrest'. discriminate.
    + split; [discriminate|].
      intros Hrel. inversion Hrel as [|? fr' ? rest' Hfr Hrest']; subst. congruence.
Qed.

Lemma json_search_with_key (query : string) (max_results : Z) (st : state) (key : string) :
  os_environ st !! "TAVILY_API_KEY" = Some key -> key ≠ "" ->
  Json._do_internet_search query max_results st
  = match search_json key query max_results (external st) with
    | (Ok answer, w) =>
        (Ok match Json.format_answer answer with
            | Ok rs => rs
            | Raise e => [Json.error_record e]
            end,
         State (os_environ st) w (store st))
    | (Raise e, w) => (Ok [Json.error_record e], State (os_environ st) w (store st))
    end.
Proof.
  intros Hkey Hne. apply truthy_Some in Hne.
  unfold Json._do_internet_search, mbind, M_bind, bind, os_environ_get.
  rewrite Hkey, Hne. simpl.
  unfold try_except, bind, Json.client_search, lift, mret, M_ret, ret. simpl.
  destruct (search_json key query max_results (external st)) as [[answer|e] w];
    [|reflexivity].
  destruct (Json.format_answer answer); reflexivity.
Qed.

Lemma json_search_key_missing (query : string) (max_results : Z) (st : state) :
  truthy (os_environ st !! "TAVILY_API_KEY") = false ->
  Json._do_internet_search query max_results st
  = (Raise (RuntimeError "TAVILY_API_KEY not set"), st).
Proof.
  intros Hkey. unfold Json._do_internet_search, mbind, M_bind, bind, os_environ_get.
  rewrite Hkey. reflexivity.
Qed.

Lemma truthy_key (o : option string) :
  truthy o = true -> ∃ key, o = Some key ∧ key ≠ "".
Proof.
  destruct o as [[|c key]|]; simpl; try discriminate.
  intros _. exists (String c key). split; [reflexivity | discriminate].
Qed.

Lemma json_slice_bounded (n : nat) (v cut : json) :
  Json.py_slice_to n v = Ok cut ->
  (∃ c, v = JStr c ∧ cut = JStr (slice_to n c))
  ∨ (∃ l, v = JList l ∧ cut = JList (take n l)).
Proof.
  destruct v as [| | | |c|l|d]; simpl; try discriminate; intros [= <-]; eauto.
Qed.

(** What the loop writes for one hit that is a [dict]. *)
Lemma json_formatted_fields (m : gmap string json) (fr : Json.record) :
  Json.format_result (JDict m) = Ok fr ->
  fr !! "url" = Some (default (JStr "") (m !! "url"))
  ∧ fr !! "title" = Some (default (JStr "") (m !! "title"))
  ∧ (∀ c, m !! "content" = Some (JStr c) ->
       fr !! "content" = Some (JStr (slice_to 3000 c)))
  ∧ (Json.py_truthy (default JNull (m !! "content")) = false ->
       fr !! "content" = Some (JStr ""))
  ∧ (∀ l, m !! "content" = Some (JList l) -> l ≠ [] ->
       fr !! "content" = Some (JList (take 3000 l)))
  ∧ dom fr = ({[ "url"; "title"; "content" ]} : gset string).
Proof.
  intros (m' & cut & [= <-] & Hcut & ->)%json_format_result_spec.
  split; [apply lookup_insert_eq|].
  split; [rewrite lookup_insert_ne by string_ne; apply lookup_insert_eq|].
  assert (∀ v, ({[ "url" := default (JStr "") (m !! "url");
                   "title" := default (JStr "") (m !! "title");
                   "content" := v ]} : gmap string json) !! "content" = Some v) as Hcontent.
  { intros v. do 2 (rewrite lookup_insert_ne by string_ne). apply lookup_singleton_eq. }
  rewrite Hcontent. unfold Json.py_or in Hcut.
  split; [|split; [|split]].
  - intros c Hc. rewrite Hc in Hcut.
    destruct c as [|a c]; simpl in Hcut; injection Hcut as <-; reflexivity.
  - intros Hfalsy. rewrite Hfalsy in Hcut. simpl in Hcut. injection Hcut as <-. reflexivity.
  - intros l Hl Hne. rewrite Hl in Hcut.
    destruct l as [|x l]; [congruence|]. simpl in Hcut. injection Hcut as <-. reflexivity.
  - rewrite !dom_insert_L, dom_singleton_L. set_solver.
Qed.

(** The content of a formatted hit is a string or a list, cut to 3000. *)
Lemma json_formatted_content (r : json) (fr : Json.record) :
  Json.format_result r = Ok fr ->
  fr !! "error" = None
  ∧ is_Some (fr !! "url")
  ∧ ((∃ c, fr !! "content" = Some (JStr c) ∧ (String.length c ≤ 3000)%nat)
     ∨ (∃ l, fr !! "content" = Some (JList l) ∧ (length l ≤ 3000)%nat)).
Proof.
  intros (m & cut & -> & Hcut & ->)%json_format_result_spec.
  split; [|split].
  - do 2 (rewrite lookup_insert_ne by string_ne). apply lookup_singleton_ne. string_ne.
  - rewrite lookup_insert_eq. eauto.
  - do 2 (rewrite lookup_insert_ne by string_ne). rewrite lookup_singleton_eq.
    apply json_slice_bounded in Hcut as [(c & _ & ->)|(l & _ & ->)].
    + left. eexists. split; [reflexivity | apply slice_to_length].
    + right. eexists. split; [reflexivity|]. rewrite length_take. lia.
Qed.

Lemma json_formatted_all (items : list json) (rs : list Json.record) :
  Forall2 (fun r fr => Json.format_result r = Ok fr) items rs ->
  Forall Json.formattable items.
Proof.
  induction 1 as [|r fr items rs Hr _ IH]; constructor; [|assumption].
  apply json_formattable_spec. eauto.
Qed.

(** The loop raises what its first unformattable item raises. *)
Lemma json_format_results_raise (items : list json) (e : exn) :
  Json.format_results items = Raise e ->
  ∃ good bad rest,
    items = good ++ bad :: rest
    ∧ Forall Json.formattable good
    ∧ Json.format_result bad = Raise e.
Proof.
  induction items as [|r items IH]; simpl; [discriminate|].
  destruct (Json.format_result r) as [fr|e'] eqn:Hr.
  - destruct (Json.format_results items) as [frs|e'] eqn:Hrest; [discriminate|].
    intros [= ->]. destruct (IH eq_refl) as (good & bad & rest & -> & Hgood & Hbad).
    exists (r :: good), bad, rest. split; [reflexivity|]. split; [|assumption].
    constructor; [|assumption]. apply json_formattable_spec. eauto.
  - intros [= ->]. exists [], r, items. split; [reflexivity|]. split; [constructor | assumption].
Qed.

Lemma json_error_record_of_strings (e : exn) :
  Json.error_record e = json_of_record (error_record e).
Proof.
  unfold Json.error_record, json_of_record, error_record.
  rewrite map_fmap_singleton. reflexivity.
Qed.

(** On a hit that carries strings, the loop on JSON writes what the
    string-level [format_result] writes. *)
Lemma json_format_result_of_strings (h : dict) :
  Json.format_result (JDict (json_of_record h)) = Ok (json_of_record (format_result h)).
Proof.
  apply json_format_result_spec.
  exists (json_of_record h), (JStr (slice_to 3000 (py_or (h !! "content") ""))).
  split; [reflexivity|]. unfold json_of_record. rewrite !lookup_fmap. split.
  - destruct (h !! "content") as [[|c s]|]; reflexivity.
  - unfold format_result, dict_get. rewrite !fmap_insert, map_fmap_singleton.
    destruct (h !! "url"), (h !! "title"); reflexivity.
Qed.

Lemma json_format_results_of_strings (hits : list dict) :
  Json.format_results ((fun h => JDict (json_of_record h)) <$> hits)
  = Ok (json_of_record <$> (format_result <$> hits)).
Proof.
  induction hits as [|h hits IH]; [reflexivity|].
  rewrite !fmap_cons. cbn [Json.format_results].
  rewrite json_format_result_of_strings, IH. reflexivity.
Qed.

Lemma json_format_answer_of_strings (response : tavily_response) :
  Json.format_answer (json_of_response response)
  = Ok (json_of_record <$> (format_result <$> default [] (response_results response))).
Proof.
  unfold Json.format_answer, json_of_response, Json.py_get.
  destruct (response_results response) as [hits|]; simpl.
  - rewrite lookup_singleton_eq. simpl. apply json_format_results_of_strings.
  - rewrite lookup_empty. reflexivity.
Qed.

End JsonProofs.

(** ** Answers the loop can and cannot format *)

Section AnswerProofs.
Context {X : Externals} {I : Interpreter} {C : JsonClient}.

(** When the key is set and the provider call returns an answer, the query
    client returns, and what it returns is settled by the answer.  If
    [answer.get("results", [])] or the iteration over it raises, the result
    is the single sentinel of that exception.  Otherwise, if every item is
    formattable, the result has one record per item, in the items' order:
    the record holds the item's [url] and [title] as sent (the empty string
    when missing), and as [content] the first 3000 characters of a string
    content (a prefix; the whole string when it has at most 3000), the empty
    string for a missing or falsy content, the first 3000 elements of a
    list.  If some item is not formattable, the result is the single
    sentinel of the exception the first such item raises: the records
    formatted before it are lost. *)
Theorem answer_formatted_or_sentinel (query : string) (max_results : Z) (st : state)
    (answer : json) (w : world) :
  truthy (os_environ st !! "TAVILY_API_KEY") = true ->
  search_json (default "" (os_environ st !! "TAVILY_API_KEY")) query max_results (external st)
  = (Ok answer, w) ->
  ∃ rs,
    Json._do_internet_search query max_results st
    = (Ok rs, State (os_environ st) w (store st))
    ∧ match Json.py_get answer "results" (JList []) with
      | Raise e => rs = [Json.error_record e]
      | Ok hits =>
          match Json.py_iter hits with
          | Raise e => rs = [Json.error_record e]
          | Ok items =>
              (Forall Json.formattable items
               ∧ Forall2 (fun r fr =>
                    ∃ m, r = JDict m
                      ∧ fr !! "url" = Some (default (JStr "") (m !! "url"))
                      ∧ fr !! "title" = Some (default (JStr "") (m !! "title"))
                      ∧ (∀ c, m !! "content" = Some (JStr c) ->
                           fr !! "content" = Some (JStr (slice_to 3000 c))
                           ∧ (∃ rest, c = slice_to 3000 c +:+ rest)
                           ∧ (String.length (slice_to 3000 c) ≤ 3000)%nat
                           ∧ ((String.length c ≤ 3000)%nat -> slice_to 3000 c = c))
                      ∧ (Json.py_truthy (default JNull (m !! "content")) = false ->
                           fr !! "content" = Some (JStr ""))
                      ∧ (∀ l, m !! "content" = Some (JList l) -> l ≠ [] ->
                           fr !! "content" = Some (JList (take 3000 l)))
                      ∧ dom fr = ({[ "url"; "title"; "content" ]} : gset string))
                    items rs)
              ∨ (∃ good bad rest e,
                   items = good ++ bad :: rest
                   ∧ Forall Json.formattable good
                   ∧ ¬ Json.formattable bad
                   ∧ Json.format_result bad = Raise e
                   ∧ rs = [Json.error_record e])
          end
      end.
Proof.
  intros Htruthy Hcall.
  destruct (truthy_key _ Htruthy) as (key & Hkey & Hne).
  rewrite Hkey in Hcall. cbn [default from_option id] in Hcall.
  rewrite (json_search_with_key _ _ _ key Hkey Hne), Hcall.
  eexists. split; [reflexivity|].
  unfold Json.format_answer.
  destruct (Json.py_get answer "results" (JList [])) as [hits|e]; [|reflexivity].
  destruct (Json.py_iter hits) as [items|e]; [|reflexivity].
  destruct (Json.format_results items) as [rs|e] eqn:Hloop.
  - left. apply json_format_results_spec in Hloop.
    split; [eapply json_formatted_all; eassumption|].
    eapply Forall2_impl; [eassumption|]. cbv beta. intros r fr Hr.
    destruct (proj1 (json_format_result_spec r fr) Hr) as (m & cut & -> & _ & _).
    destruct (json_formatted_fields m fr Hr)
      as (Hurl & Htitle & Hstr & Hfalsy & Hlist & Hdom).
    exists m. split; [reflexivity|]. split; [assumption|]. split; [assumption|].
    split; [|auto].
    intros c Hc. split; [auto|]. split; [apply slice_to_prefix|].
    split; [apply slice_to_length | apply slice_to_short].
  - right. destruct (json_format_results_raise items e Hloop)
      as (good & bad & rest & Hitems & Hgood & Hbad).
    exists good, bad, rest, e. split; [assumption|]. split; [assumption|].
    split; [|auto].
    intros [fr Hfr]%json_formattable_spec. congruence.
Qed.

(** Whatever the provider answers, every record the query client returns is
    the failure sentinel, with [error] as its only key, or a formatted hit,
    which has a [url] key, no [error] key, and as [content] a string of at
    most 3000 characters or a list of at most 3000 elements. *)
Theorem returned_records_are_bounded (query : string) (max_results : Z) (st : state)
    (rs : list Json.record) :
  (Json._do_internet_search query max_results st).1 = Ok rs ->
  ∀ r, r ∈ rs ->
    (∃ e, r = Json.error_record e ∧ rs = [r])
    ∨ (r !! "error" = None
       ∧ is_Some (r !! "url")
       ∧ ((∃ c, r !! "content" = Some (JStr c) ∧ (String.length c ≤ 3000)%nat)
          ∨ (∃ l, r !! "content" = Some (JList l) ∧ (length l ≤ 3000)%nat))).
Proof.
  intros Hrun r Hr.
  destruct (truthy (os_environ st !! "TAVILY_API_KEY")) eqn:Htruthy;
    [|rewrite json_search_key_missing in Hrun by assumption; discriminate].
  destruct (truthy_key _ Htruthy) as (key & Hkey & Hne).
  rewrite (json_search_with_key _ _ _ key Hkey Hne) in Hrun.
  destruct (search_json key query max_results (external st)) as [[answer|e] w];
    simpl in Hrun; injection Hrun as <-.
  - destruct (Json.format_answer answer) as [frs|e] eqn:Hanswer.
    + right. unfold Json.format_answer in Hanswer.
      destruct (Json.py_get answer "results" (JList [])) as [hits|?]; [|discriminate].
      destruct (Json.py_iter hits) as [items|?]; [|discriminate].
      apply json_format_results_spec in Hanswer.
      destruct (proj1 (list_elem_of_lookup frs r) Hr) as [i Hi].
      destruct (Forall2_lookup_r _ _ _ _ _ Hanswer Hi) as (item & _ & Hitem).
      exact (json_formatted_content item r Hitem).
    + left. apply list_elem_of_singleton in Hr as ->. eauto.
  - left. apply list_elem_of_singleton in Hr as ->. eauto.
Qed.

End AnswerProofs.

(** ** The two levels agree on answers that carry strings *)

(** On a provider whose answers carry strings, the query client on JSON
    does what the string-level query client does: it raises the same
    exception, or returns the same records with their values as JSON
    strings, and leaves the same state. *)
Theorem json_client_agrees_on_strings {X : Externals} {I : Interpreter}
    (query : string) (max_results : Z) (st : state) :
  @Json._do_internet_search X I string_answers query max_results st
  = match _do_internet_search query max_results st with
    | (Ok rs, st') => (Ok (json_of_record <$> rs), st')
    | (Raise e, st') => (Raise e, st')
    end.
Proof.
  destruct (truthy (os_environ st !! "TAVILY_API_KEY")) eqn:Htruthy.
  - destruct (truthy_key _ Htruthy) as (key & Hkey & Hne).
    rewrite (json_search_with_key _ _ _ key Hkey Hne).
    rewrite (do_search_with_key _ _ _ key Hkey Hne).
    cbn [search_json string_answers].
    destruct (TavilyClient_search key query max_results (external st)) as [[response|e] w].
    + rewrite json_format_answer_of_strings. reflexivity.
    + rewrite json_error_record_of_strings. reflexivity.
  - rewrite json_search_key_missing, do_search_key_missing by assumption. reflexivity.
Qed.

(** ** Keys and values of the records, and sources with an empty URL *)


(** ** The query client on the demo provider's odd answers *)


(** The demo provider answers ["topic"] with three hits that carry strings;
    three records come back, in the order sent. *)
Lemma answer_formatted_demo :
  ∃ rs,
    Demo.search_strings "topic" 5 Demo.st0 = (Ok rs, Demo.st_search)
    ∧ rs = json_of_record <$> Demo.captured_topic.
Proof.
  destruct (@answer_formatted_or_sentinel Demo.demo Demo.demo_interpreter string_answers
              "topic" 5 Demo.st0
              (json_of_response (TavilyResponse (Some [Demo.hit_a; Demo.hit_b; Demo.hit_c])))
              1 eq_refl eq_refl) as (rs & Hrun & _).
  exists rs. split; [exact Hrun|].
  assert (Demo.search_strings "topic" 5 Demo.st0
          = (Ok (json_of_record <$> Demo.captured_topic), Demo.st_search)) as Hrun'
    by reflexivity.
  unfold Demo.search_strings in Hrun'. congruence.
Defined.

(** An answer whose ["results"] is null: the iteration raises inside the
    [try], and the sentinel comes back. *)
Example null_results_give_sentinel :
  (Demo.search_odd "null-results" 5 Demo.st0).1
  = Ok [Json.error_record (Exn "TypeError" "'NoneType' object is not iterable")].
Proof. reflexivity. Qed.

(** An answer whose second hit has a number as content: the slice raises,
    and the sentinel comes back without the first hit's record. *)
Example bad_content_gives_sentinel :
  (Demo.search_odd "bad-content" 5 Demo.st0).1
  = Ok [Json.error_record (Exn "TypeError" "'int' object is not subscriptable")].
Proof. reflexivity. Qed.

(** The record made of the hit with a null [url] is a formatted hit with a
    short content. *)
Lemma returned_records_demo :
  (Demo.search_odd "nulls" 5 Demo.st0).1 = Ok [Demo.record_null]
  ∧ ((∃ e, Demo.record_null = Json.error_record e ∧ [Demo.record_null] = [Demo.record_null])
     ∨ (Demo.record_null !! "error" = None
        ∧ is_Some (Demo.record_null !! "url")
        ∧ ((∃ c, Demo.record_null !! "content" = Some (JStr c) ∧ (String.length c ≤ 3000)%nat)
           ∨ (∃ l, Demo.record_null !! "content" = Some (JList l) ∧ (length l ≤ 3000)%nat)))).
Proof.
  split; [reflexivity|].
  apply (@returned_records_are_bounded Demo.demo Demo.demo_interpreter Demo.demo_json_odd
           "nulls" 5 Demo.st0 [Demo.record_null] eq_refl Demo.record_null).
  constructor.
Defined.
